(** * The pytest runner of ape: snapshot before each test, revert after it

    A shallow embedding of [src/ape_test/runners.py] (class
    [PytestApeRunner]) and the properties of its four hooks.

    The runner talks to three collaborators: the active provider
    ([snapshot], [revert], [connect], [disconnect]), the network manager
    ([active_provider], [get_provider_from_choice]) and the logger.  A hook
    is a computation over the runner object and the objects it points to,
    that may raise, and that leaves a chronological list of the calls it
    made on the collaborators. *)

From Stdlib Require Import List String ZArith Bool Lia.
Import ListNotations.
Open Scope string_scope.
Open Scope list_scope.

Set Implicit Arguments.

(** ** Python values and exceptions *)

(** The values a provider hands out as snapshot ids, as far as the runner
    looks at them: it only tests them for truth ([if snapshot_id:]). *)
Inductive PyVal : Type :=
| VNone
| VInt (z : Z)
| VStr (s : string)
| VBytes (b : list nat).

(** Python's truth value of an object. *)
Definition truthy (v : PyVal) : bool :=
  match v with
  | VNone => false
  | VInt z => negb (Z.eqb z 0)
  | VStr s => negb (String.eqb s "")
  | VBytes b => negb (Nat.eqb (List.length b) 0)
  end.

(** Truth value of a Python list: non-empty. *)
Definition truthy_list {A : Type} (l : list A) : bool :=
  match l with
  | [] => false
  | _ :: _ => true
  end.

Inductive exn : Type :=
| NotImplementedError
| AttributeError
| OtherError (name : string).

(** What [except NotImplementedError] catches. *)
Definition is_NotImplementedError (e : exn) : bool :=
  match e with
  | NotImplementedError => true
  | _ => false
  end.

(** The result of a call: a value, or a raised exception. *)
Inductive Res (A : Type) : Type :=
| Ret (a : A)
| Raise (e : exn).
Arguments Raise {A} e.

(** ** Calls on the collaborators *)

Inductive LogLevel : Type := DEBUG | INFO | WARNING | ERROR.

Inductive Event : Type :=
| ESnapshot
| ERevert (snapshot_id : PyVal)
| EConnect
| EDisconnect
| EGetProvider (choice : string)
| ELog (level : LogLevel) (msg : string)
| ETestBody.

Definition is_warning (e : Event) : bool :=
  match e with ELog WARNING _ => true | _ => false end.

Definition is_log (e : Event) : bool :=
  match e with ELog _ _ => true | _ => false end.

Definition is_snapshot (e : Event) : bool :=
  match e with ESnapshot => true | _ => false end.

Definition is_revert (e : Event) : bool :=
  match e with ERevert _ => true | _ => false end.

Definition is_connect (e : Event) : bool :=
  match e with EConnect => true | _ => false end.

Definition is_disconnect (e : Event) : bool :=
  match e with EDisconnect => true | _ => false end.

Definition count (f : Event -> bool) (l : list Event) : nat :=
  List.length (filter f l).

(** ** The provider interface

    [TestProviderAPI] is abstract for the runner.  [P] is the state of a
    provider object; a method returns its result and the object after the
    call.  [hasattr_snapshot] is [hasattr(provider, "snapshot")]. *)
Class TestProviderAPI (P : Type) : Type := {
  hasattr_snapshot : P -> bool;
  snapshot : P -> Res PyVal * P;
  revert : PyVal -> P -> Res unit * P;
  connect : P -> Res unit * P;
  disconnect : P -> Res unit * P
}.

(** The outcome the host runner reports for a test. *)
Inductive TestReport : Type := Passed | Failed | Errored | Skipped.

(** ** The runner and the objects it points to *)

(** pytest's config: the runner reads options from it; the options it
    reads are registered with a default. *)
Record Config : Type := { getoption : string -> string }.

Definition Project : Type := string.

(** Address of a network manager object. *)
Definition loc : Type := nat.

Record PytestApeRunner : Type := {
  config : Config;
  project : Project;
  networks : loc;
  _warned_for_missing_features : bool
}.

(** [PytestApeRunner.__init__]. *)
Definition init (cfg : Config) (proj : Project) (nets : loc) : PytestApeRunner :=
  {| config := cfg;
     project := proj;
     networks := nets;
     _warned_for_missing_features := false |}.

Definition set_warned (b : bool) (r : PytestApeRunner) : PytestApeRunner :=
  {| config := config r;
     project := project r;
     networks := networks r;
     _warned_for_missing_features := b |}.

Section Runner.

Context {P : Type} `{TestProviderAPI P}.

(** The network manager holds the active provider, if any. *)
Record NetworkManager : Type := { active_provider : option P }.

Definition Heap : Type := loc -> NetworkManager.

Definition store (h : Heap) (l : loc) (n : NetworkManager) : Heap :=
  fun l' => if Nat.eqb l' l then n else h l'.

(** The runner object ([self]) and the network managers. *)
Record State : Type := {
  self : PytestApeRunner;
  heap : Heap
}.

(** The network manager [self.networks] points to. *)
Definition the_networks (s : State) : NetworkManager :=
  heap s (networks (self s)).

Definition set_active_provider (p : option P) (s : State) : State :=
  {| self := self s;
     heap := store (heap s) (networks (self s)) {| active_provider := p |} |}.

(** ** Computations: state, exceptions, and the calls made *)

Definition M (A : Type) : Type := State -> Res A * State * list Event.

Definition ret {A : Type} (a : A) : M A := fun s => (Ret a, s, []).

Definition raise {A : Type} (e : exn) : M A := fun s => (Raise e, s, []).

Definition bind {A B : Type} (m : M A) (f : A -> M B) : M B :=
  fun s =>
    match m s with
    | (Ret a, s1, ev1) =>
        match f a s1 with
        | (r, s2, ev2) => (r, s2, ev1 ++ ev2)
        end
    | (Raise e, s1, ev1) => (Raise e, s1, ev1)
    end.

(** [try: m  except <catches>: handler]; an exception the clause does not
    catch goes on. *)
Definition try_except {A : Type} (m : M A) (catches : exn -> bool)
    (handler : M A) : M A :=
  fun s =>
    match m s with
    | (Ret a, s1, ev1) => (Ret a, s1, ev1)
    | (Raise e, s1, ev1) =>
        if catches e then
          match handler s1 with
          | (r, s2, ev2) => (r, s2, ev1 ++ ev2)
          end
        else (Raise e, s1, ev1)
    end.

Notation "x <- m ;; k" := (bind m (fun x => k))
  (at level 61, m at next level, right associativity).
Notation "m ;;; k" := (bind m (fun _ => k))
  (at level 61, right associativity).

Definition gets {A : Type} (f : State -> A) : M A := fun s => (Ret (f s), s, []).

Definition modify (f : State -> State) : M unit := fun s => (Ret tt, f s, []).

Definition emit (e : Event) : M unit := fun s => (Ret tt, s, [e]).

Definition result {A : Type} (x : Res A * State * list Event) : Res A := fst (fst x).
Definition final {A : Type} (x : Res A * State * list Event) : State := snd (fst x).
Definition events {A : Type} (x : Res A * State * list Event) : list Event := snd x.

(** ** The hooks of [PytestApeRunner] *)

(** Property [_network_choice]: the option given with --network, or its
    default. *)
Definition _network_choice : M string :=
  gets (fun s => getoption (config (self s)) "network").

(** Property [_provider]: the active provider. *)
Definition _provider : M (option P) :=
  gets (fun s => active_provider (the_networks s)).

(** [hasattr(self._provider, "snapshot")]; [None] has no such attribute. *)
Definition hasattr_provider_snapshot : M bool :=
  p <- _provider ;;
  ret match p with
      | Some p => hasattr_snapshot p
      | None => false
      end.

(** A method call [self._provider.<method>(...)]: looks the active provider
    up, calls the method on it and leaves the provider as the call left it.
    On [None] the attribute lookup raises. *)
Definition call_provider {A : Type} (ev : Event) (method : P -> Res A * P) : M A :=
  fun s =>
    match active_provider (the_networks s) with
    | None => raise AttributeError s
    | Some p =>
        match method p with
        | (r, p') => (r, set_active_provider (Some p') s, [ev])
        end
    end.

Definition logger_warning (msg : string) : M unit := emit (ELog WARNING msg).

Definition warned (s : State) : bool := _warned_for_missing_features (self s).

Definition _warn_for_unimplemented_snapshot : M unit :=
  already <- gets (fun s => _warned_for_missing_features (self s)) ;;
  if already then ret tt
  else
    logger_warning
      ("The connected provider does not support snapshotting. "
       ++ "Tests will not be completely isolated.")%string ;;;
    modify (fun s => {| self := set_warned true (self s); heap := heap s |}).

(** [pytest_runtest_protocol] up to its [yield]; returns the local
    [snapshot_id], which the rest of the generator reads. *)
Definition pytest_runtest_protocol_setup : M PyVal :=
  let snapshot_id := VNone in
  has <- hasattr_provider_snapshot ;;
  if has then
    try_except
      (call_provider ESnapshot snapshot)
      is_NotImplementedError
      (_warn_for_unimplemented_snapshot ;;; ret snapshot_id)
  else
    _warn_for_unimplemented_snapshot ;;; ret snapshot_id.

(** [pytest_runtest_protocol] after its [yield]. *)
Definition pytest_runtest_protocol_teardown (snapshot_id : PyVal) : M unit :=
  if truthy snapshot_id then call_provider (ERevert snapshot_id) (revert snapshot_id)
  else ret tt.

(** Modelled from the spec: the host runner's protocol for a hook wrapper
    ([hookwrapper=True]), which is not part of this repository.  The wrapper
    runs up to its [yield]; the wrapped hooks run and their outcome, a result
    or an exception, is captured; the wrapper is resumed with that outcome
    "unconditionally"; then the outcome is delivered.  An exception of the
    wrapper itself, before or after the [yield], goes to the host; before the
    [yield] the wrapped hooks are then not run. *)
Definition hookwrapper {L A : Type} (setup : M L)
    (teardown : L -> Res A -> M unit) (inner : M A) : M A :=
  fun s =>
    match setup s with
    | (Raise e, s1, ev1) => (Raise e, s1, ev1)
    | (Ret locals, s1, ev1) =>
        match inner s1 with
        | (outcome, s2, ev2) =>
            match teardown locals outcome s2 with
            | (Raise e, s3, ev3) => (Raise e, s3, ev1 ++ ev2 ++ ev3)
            | (Ret _, s3, ev3) => (outcome, s3, ev1 ++ ev2 ++ ev3)
            end
        end
    end.

(** A test body, as the wrapped hooks run it: it reports or raises, and may
    change the state of the active provider.  Which provider is active is
    changed by the runner only. *)
Record TestBody : Type := {
  run_body : P -> Res TestReport * P;
  run_body_unconnected : Res TestReport
}.

Definition run_test_body (body : TestBody) : M TestReport :=
  fun s =>
    match active_provider (the_networks s) with
    | Some p =>
        match run_body body p with
        | (r, p') => (r, set_active_provider (Some p') s, [ETestBody])
        end
    | None => (run_body_unconnected body, s, [ETestBody])
    end.

Definition Item : Type := string.

Definition pytest_runtest_protocol (item : Item) (nextitem : option Item)
    (body : TestBody) : M TestReport :=
  hookwrapper
    pytest_runtest_protocol_setup
    (fun snapshot_id _ => pytest_runtest_protocol_teardown snapshot_id)
    (run_test_body body).

(** [networks.get_provider_from_choice], of the network manager. *)
Variable get_provider_from_choice : string -> Res P.

Definition networks_get_provider_from_choice (choice : string) : M P :=
  fun s => (get_provider_from_choice choice, s, [EGetProvider choice]).

(** [outcome.get_result()]: the results of the wrapped hooks, or their
    exception raised again. *)
Definition get_result {A : Type} (outcome : Res A) : M A :=
  fun s => (outcome, s, []).

(** [pytest_collection_finish] after its [yield] ([outcome = yield] is its
    first statement).  The three operands of [and] are evaluated in order. *)
Definition pytest_collection_finish_teardown (session_items : list Item)
    (outcome : Res (list PyVal)) : M unit :=
  res <- get_result outcome ;;
  active <- _provider ;;
  if negb (truthy_list res) && truthy_list session_items
     && negb (match active with Some _ => true | None => false end)
  then
    choice <- _network_choice ;;
    p <- networks_get_provider_from_choice choice ;;
    modify (set_active_provider (Some p)) ;;;
    call_provider EConnect connect
  else ret tt.

(** The wrapped collection-finish hooks do not touch the runner or the
    network manager; [outcome] is what they return or raise. *)
Definition pytest_collection_finish (session_items : list Item)
    (outcome : Res (list PyVal)) : M (list PyVal) :=
  hookwrapper
    (ret tt)
    (fun _ o => pytest_collection_finish_teardown session_items o)
    (get_result outcome).

Definition pytest_sessionfinish : M unit :=
  p <- _provider ;;
  match p with
  | Some _ => call_provider EDisconnect disconnect
  | None => ret tt
  end.

(** ** The test loop, as the host runner drives it *)

Definition nextitem_of (rest : list (Item * TestBody)) : option Item :=
  match rest with
  | [] => None
  | (item, _) :: _ => Some item
  end.

(** The test loop: the wrapper is called for one test after the other; the
    state goes from each call to the next, whether the call raised or not. *)
Fixpoint run_tests (tests : list (Item * TestBody)) (s : State) : State * list Event :=
  match tests with
  | [] => (s, [])
  | (item, body) :: rest =>
      match pytest_runtest_protocol item (nextitem_of rest) body s with
      | (_, s1, ev1) =>
          match run_tests rest s1 with
          | (s2, ev2) => (s2, ev1 ++ ev2)
          end
      end
  end.

(** ** What one call of the warning routine leaves behind *)

Definition warning_text : string :=
  "The connected provider does not support snapshotting. Tests will not be completely isolated.".

Definition warning_events (s : State) : list Event :=
  if warned s then [] else [ELog WARNING warning_text].

Definition after_warning (s : State) : State :=
  if warned s then s
  else {| self := set_warned true (self s); heap := heap s |}.

(** The condition under which [pytest_collection_finish] starts a provider. *)
Definition starts_provider (res : list PyVal) (session_items : list Item)
    (s : State) : bool :=
  negb (truthy_list res) && truthy_list session_items
  && negb (match active_provider (the_networks s) with Some _ => true | None => false end).

Definition network_choice_of (s : State) : string :=
  getoption (config (self s)) "network".

(** The calls the per-test wrapper can make. *)
Definition wrapper_event (e : Event) : Prop :=
  match e with
  | ESnapshot | ETestBody | ERevert _ => True
  | ELog WARNING msg => msg = warning_text
  | _ => False
  end.

Definition has_active_provider (s : State) : bool :=
  match active_provider (the_networks s) with
  | Some _ => true
  | None => false
  end.

End Runner.

Arguments State P : clear implicits.
Arguments NetworkManager P : clear implicits.
Arguments TestBody P : clear implicits.

(** ** Session start: the warnings the terminal reporter holds *)

(** [needle in hay] on Python strings: [needle] occurs in [hay]. *)
Fixpoint startswith (hay needle : string) {struct needle} : bool :=
  match needle, hay with
  | EmptyString, _ => true
  | String a needle', String b hay' => Ascii.eqb a b && startswith hay' needle'
  | String _ _, EmptyString => false
  end.

Fixpoint contains (needle hay : string) : bool :=
  startswith hay needle
  || match hay with
     | EmptyString => false
     | String _ hay' => contains needle hay'
     end.

(** A Python dict with string keys, in insertion order; a key occurs once. *)
Definition Dict (V : Type) : Type := list (string * V).

Fixpoint dict_get {V : Type} (k : string) (d : Dict V) : option V :=
  match d with
  | [] => None
  | (k', v) :: rest => if String.eqb k' k then Some v else dict_get k rest
  end.

Definition dict_remove {V : Type} (k : string) (d : Dict V) : Dict V :=
  filter (fun kv => negb (String.eqb (fst kv) k)) d.

(** [d.pop(k, default)]: the value under [k], or [default], and the dict
    without [k]. *)
Definition dict_pop {V : Type} (k : string) (default : V) (d : Dict V) : V * Dict V :=
  (match dict_get k d with Some v => v | None => default end, dict_remove k d).

(** [d[k] = v]: in place when [k] is there, at the end otherwise. *)
Fixpoint dict_set {V : Type} (k : string) (v : V) (d : Dict V) : Dict V :=
  match d with
  | [] => [(k, v)]
  | (k', v') :: rest =>
      if String.eqb k' k then (k, v) :: rest else (k', v') :: dict_set k v rest
  end.

(** A warning as the reporter keeps it; the runner reads its [message]. *)
Record WarningReport : Type := {
  message : string;
  nodeid : string
}.

(** The terminal reporter, as far as the runner touches it: [stats], the
    reports by category. *)
Record TerminalReporter : Type := {
  stats : Dict (list WarningReport)
}.

(** Truth value of an option, as [not config.getoption(...)] tests it; the
    options are read as strings here, a flag that is not given reads as the
    empty string. *)
Definition option_is_set (cfg : Config) (name : string) : bool :=
  truthy (VStr (getoption cfg name)).

Definition is_rewrite_warning (i : WarningReport) : bool :=
  contains "PytestAssertRewriteWarning" (message i).

(** [pytest_sessionstart].  [reporter] is what
    [self.config.pluginmanager.get_plugin("terminalreporter")] returns:
    the reporter, or [None] when no such plugin is registered, on which
    [.stats] raises. *)
Definition pytest_sessionstart (self : PytestApeRunner)
    (reporter : option TerminalReporter) : Res unit * option TerminalReporter :=
  match reporter with
  | None => (Raise AttributeError, None)
  | Some rep =>
      match dict_pop "warnings" [] (stats rep) with
      | (warnings, stats1) =>
          let warnings := filter (fun i => negb (is_rewrite_warning i)) warnings in
          if truthy_list warnings
             && negb (option_is_set (config self) "--disable-warnings")
          then (Ret tt, Some {| stats := dict_set "warnings" warnings stats1 |})
          else (Ret tt, Some {| stats := stats1 |})
      end
  end.

(** What the reporter holds under a category: [stats.get(category)]. *)
Definition reported_under (category : string) (reporter : option TerminalReporter)
    : option (list WarningReport) :=
  match reporter with
  | Some rep => dict_get category (stats rep)
  | None => None
  end.

Definition reported_warnings (reporter : option TerminalReporter)
    : option (list WarningReport) :=
  reported_under "warnings" reporter.

Definition is_test_body (e : Event) : bool :=
  match e with ETestBody => true | _ => false end.

Definition is_resolution (e : Event) : bool :=
  match e with EGetProvider _ => true | _ => false end.

(** ** A provider to run the hooks on

    A small chain with a counter for snapshot ids, as test providers have
    it: [snapshot] hands out the counter and saves the chain state under it,
    [revert] restores the state saved under an id. *)
Module Mock.

Inductive Support : Type :=
| Absent                 (* no snapshot attribute *)
| Unimplemented          (* snapshot raises NotImplementedError *)
| Broken (e : exn)       (* snapshot raises e *)
| Working.

Record Chain : Type := {
  support : Support;
  storage : Z;
  next_id : Z;
  saved : list (Z * Z)
}.

Definition with_storage (v : Z) (c : Chain) : Chain :=
  {| support := support c; storage := v; next_id := next_id c; saved := saved c |}.

Fixpoint lookup (id : Z) (l : list (Z * Z)) : option Z :=
  match l with
  | [] => None
  | (k, v) :: rest => if Z.eqb k id then Some v else lookup id rest
  end.

Definition chain_snapshot (c : Chain) : Res PyVal * Chain :=
  match support c with
  | Working =>
      (Ret (VInt (next_id c)),
       {| support := support c; storage := storage c;
          next_id := next_id c + 1;
          saved := (next_id c, storage c) :: saved c |})
  | Unimplemented => (Raise NotImplementedError, c)
  | Broken e => (Raise e, c)
  | Absent => (Raise AttributeError, c)
  end.

Definition chain_revert (id : PyVal) (c : Chain) : Res unit * Chain :=
  match id with
  | VInt n =>
      match lookup n (saved c) with
      | Some v => (Ret tt, with_storage v c)
      | None => (Raise (OtherError "unknown snapshot"), c)
      end
  | _ => (Raise (OtherError "unknown snapshot"), c)
  end.

#[global] Instance chain_provider : TestProviderAPI Chain := {
  hasattr_snapshot c := match support c with Absent => false | _ => true end;
  snapshot := chain_snapshot;
  revert := chain_revert;
  connect c := (Ret tt, c);
  disconnect c := (Ret tt, c)
}.

Definition fresh (sup : Support) (first_id : Z) : Chain :=
  {| support := sup; storage := 0; next_id := first_id; saved := [] |}.

(** A test that writes [v] to the chain and then reports or raises [r]. *)
Definition writes (v : Z) (r : Res TestReport) : TestBody Chain :=
  {| run_body c := (r, with_storage v c); run_body_unconnected := r |}.

Definition cfg : Config := {| getoption _ := "ethereum:local:test" |}.

(** A runner as [__init__] leaves it, its network manager at address 0
    holding [active]. *)
Definition start (active : option Chain) : State Chain :=
  {| self := init cfg "project" 0;
     heap := fun _ => {| active_provider := active |} |}.

Definition resolve (sup : Support) (first_id : Z) (choice : string) : Res Chain :=
  Ret (fresh sup first_id).

(** A connected provider that supports snapshots and numbers them from
    [first_id]. *)
Definition counting_from (first_id : Z) : State Chain :=
  start (Some (fresh Working first_id)).

Definition interrupted : TestBody Chain := writes 5 (Raise (OtherError "KeyboardInterrupt")).
Definition failing : TestBody Chain := writes 5 (Ret Failed).
Definition passing : TestBody Chain := writes 5 (Ret Passed).

End Mock.

(** ** More providers, tests and reporters to run the hooks on *)
Module Fixtures.

(** A test that resets the chain and so loses the snapshots saved on it. *)
Definition resetting : TestBody Mock.Chain :=
  {| run_body c := (Ret Passed, Mock.fresh Mock.Working (Mock.next_id c));
     run_body_unconnected := Ret Passed |}.

(** A remote node without snapshots; [connect] fails when it is not
    reachable. *)
Record Node : Type := { reachable : bool }.

#[global] Instance node_provider : TestProviderAPI Node := {
  hasattr_snapshot _ := false;
  snapshot n := (Raise AttributeError, n);
  revert _ n := (Raise NotImplementedError, n);
  connect n :=
    if reachable n then (Ret tt, n) else (Raise (OtherError "ProviderError"), n);
  disconnect n := (Ret tt, n)
}.

Definition unreachable (choice : string) : Res Node := Ret {| reachable := false |}.

Definition unknown_network (choice : string) : Res Mock.Chain :=
  Raise (OtherError "NetworkNotFoundError").

Definition node_start : State Node :=
  {| self := init Mock.cfg "project" 0;
     heap := fun _ => {| active_provider := None |} |}.

Definition node_test : TestBody Node :=
  {| run_body n := (Ret Passed, n); run_body_unconnected := Ret Passed |}.

Definition rewrite_warning : WarningReport :=
  {| message := "PytestAssertRewriteWarning: Module already imported so cannot be rewritten: ape";
     nodeid := "" |}.

Definition deprecation_warning : WarningReport :=
  {| message := "DeprecationWarning: the imp module is deprecated";
     nodeid := "tests/test_a.py" |}.

Definition reporter : TerminalReporter :=
  {| stats := [("warnings", [rewrite_warning; deprecation_warning]);
               ("deselected", [])] |}.

Definition quiet_cfg : Config :=
  {| getoption name := if String.eqb name "--disable-warnings" then "True"
                       else "ethereum:local:test" |}.

Definition loud_cfg : Config :=
  {| getoption name := if String.eqb name "--disable-warnings" then ""
                       else "ethereum:local:test" |}.

End Fixtures.

(** * Properties *)

Unset Implicit Arguments.

Section Properties.

Context {P : Type} `{TestProviderAPI P}.

Implicit Types (s : State P) (p : P) (body : TestBody P) (t : PyVal).

(** ** The state behind [self.networks] *)

Lemma active_set_active_provider o s :
  active_provider (the_networks (set_active_provider o s)) = o.
Proof.
  unfold the_networks, set_active_provider, store; simpl.
  now rewrite Nat.eqb_refl.
Qed.

Lemma self_set_active_provider o s : self (set_active_provider o s) = self s.
Proof. reflexivity. Qed.

Lemma warned_set_active_provider o s : warned (set_active_provider o s) = warned s.
Proof. reflexivity. Qed.

Lemma self_after_warning s :
  self (after_warning s) = set_warned true (self s) \/ self (after_warning s) = self s.
Proof. unfold after_warning. destruct (warned s); auto. Qed.

Lemma warned_after_warning s : warned (after_warning s) = true.
Proof. unfold after_warning. destruct (warned s) eqn:E; auto. Qed.

Lemma active_after_warning s :
  active_provider (the_networks (after_warning s)) = active_provider (the_networks s).
Proof. unfold after_warning. destruct (warned s); reflexivity. Qed.

Lemma count_app f (l1 l2 : list Event) : count f (l1 ++ l2) = count f l1 + count f l2.
Proof. unfold count. now rewrite filter_app, length_app. Qed.

Lemma count_warning_events s : count is_warning (warning_events s) = Nat.b2n (negb (warned s)).
Proof. unfold warning_events. destruct (warned s); reflexivity. Qed.

(** ** The warning routine and the two halves of the wrapper, by cases *)

Lemma warn_run s :
  _warn_for_unimplemented_snapshot s = (Ret tt, after_warning s, warning_events s).
Proof.
  unfold _warn_for_unimplemented_snapshot, bind, gets, after_warning, warning_events, warned.
  destruct (_warned_for_missing_features (self s)); reflexivity.
Qed.

Lemma setup_no_provider s :
  active_provider (the_networks s) = None ->
  pytest_runtest_protocol_setup s = (Ret VNone, after_warning s, warning_events s).
Proof.
  intros Hnone.
  unfold pytest_runtest_protocol_setup, hasattr_provider_snapshot, _provider, bind, gets, ret.
  rewrite Hnone, warn_run. simpl. now rewrite app_nil_r.
Qed.

Lemma setup_no_attribute s p :
  active_provider (the_networks s) = Some p ->
  hasattr_snapshot p = false ->
  pytest_runtest_protocol_setup s = (Ret VNone, after_warning s, warning_events s).
Proof.
  intros Hp Hattr.
  unfold pytest_runtest_protocol_setup, hasattr_provider_snapshot, _provider, bind, gets, ret.
  rewrite Hp, Hattr, warn_run. simpl. now rewrite app_nil_r.
Qed.

Lemma setup_snapshot_taken s p t p' :
  active_provider (the_networks s) = Some p ->
  hasattr_snapshot p = true ->
  snapshot p = (Ret t, p') ->
  pytest_runtest_protocol_setup s = (Ret t, set_active_provider (Some p') s, [ESnapshot]).
Proof.
  intros Hp Hattr Hsnap.
  unfold pytest_runtest_protocol_setup, hasattr_provider_snapshot, _provider, bind, gets, ret,
    try_except, call_provider.
  rewrite Hp, Hattr; cbv beta iota.
  now rewrite Hp, Hsnap.
Qed.

Lemma setup_snapshot_unimplemented s p e p' :
  active_provider (the_networks s) = Some p ->
  hasattr_snapshot p = true ->
  snapshot p = (Raise e, p') ->
  is_NotImplementedError e = true ->
  pytest_runtest_protocol_setup s =
    (Ret VNone, after_warning (set_active_provider (Some p') s), ESnapshot :: warning_events s).
Proof.
  intros Hp Hattr Hsnap He.
  unfold pytest_runtest_protocol_setup, hasattr_provider_snapshot, _provider, bind, gets, ret,
    try_except, call_provider.
  rewrite Hp, Hattr; cbv beta iota.
  rewrite Hp, Hsnap; cbv beta iota.
  rewrite He, warn_run. simpl.
  unfold warning_events. rewrite warned_set_active_provider.
  now rewrite app_nil_r.
Qed.

Lemma setup_snapshot_raises s p e p' :
  active_provider (the_networks s) = Some p ->
  hasattr_snapshot p = true ->
  snapshot p = (Raise e, p') ->
  is_NotImplementedError e = false ->
  pytest_runtest_protocol_setup s = (Raise e, set_active_provider (Some p') s, [ESnapshot]).
Proof.
  intros Hp Hattr Hsnap He.
  unfold pytest_runtest_protocol_setup, hasattr_provider_snapshot, _provider, bind, gets, ret,
    try_except, call_provider.
  rewrite Hp, Hattr; cbv beta iota.
  rewrite Hp, Hsnap; cbv beta iota.
  now rewrite He.
Qed.

Lemma body_with_provider body s p :
  active_provider (the_networks s) = Some p ->
  run_test_body body s =
    (fst (run_body body p), set_active_provider (Some (snd (run_body body p))) s, [ETestBody]).
Proof.
  intros Hp. unfold run_test_body. rewrite Hp. now destruct (run_body body p).
Qed.

Lemma body_without_provider body s :
  active_provider (the_networks s) = None ->
  run_test_body body s = (run_body_unconnected body, s, [ETestBody]).
Proof. intros Hnone. unfold run_test_body. now rewrite Hnone. Qed.

Lemma teardown_falsy t s :
  truthy t = false -> pytest_runtest_protocol_teardown t s = (Ret tt, s, []).
Proof. intros Ht. unfold pytest_runtest_protocol_teardown. now rewrite Ht. Qed.

Lemma teardown_truthy t s p :
  truthy t = true ->
  active_provider (the_networks s) = Some p ->
  pytest_runtest_protocol_teardown t s =
    (fst (revert t p), set_active_provider (Some (snd (revert t p))) s, [ERevert t]).
Proof.
  intros Ht Hp. unfold pytest_runtest_protocol_teardown, call_provider.
  rewrite Ht, Hp. now destruct (revert t p).
Qed.

(** ** The wrapper, by cases *)

Lemma protocol_setup_returns item nextitem body s t s1 ev1 :
  pytest_runtest_protocol_setup s = (Ret t, s1, ev1) ->
  pytest_runtest_protocol item nextitem body s =
    match run_test_body body s1 with
    | (outcome, s2, ev2) =>
        match pytest_runtest_protocol_teardown t s2 with
        | (Raise e, s3, ev3) => (Raise e, s3, ev1 ++ ev2 ++ ev3)
        | (Ret _, s3, ev3) => (outcome, s3, ev1 ++ ev2 ++ ev3)
        end
    end.
Proof. intros Hsetup. unfold pytest_runtest_protocol, hookwrapper. now rewrite Hsetup. Qed.

Lemma protocol_setup_raises item nextitem body s e s1 ev1 :
  pytest_runtest_protocol_setup s = (Raise e, s1, ev1) ->
  pytest_runtest_protocol item nextitem body s = (Raise e, s1, ev1).
Proof. intros Hsetup. unfold pytest_runtest_protocol, hookwrapper. now rewrite Hsetup. Qed.

Lemma protocol_no_provider item nextitem body s :
  active_provider (the_networks s) = None ->
  pytest_runtest_protocol item nextitem body s =
    (run_body_unconnected body, after_warning s, warning_events s ++ [ETestBody]).
Proof.
  intros Hnone.
  rewrite (protocol_setup_returns item nextitem body s _ _ _ (setup_no_provider s Hnone)).
  rewrite body_without_provider by now rewrite active_after_warning.
  rewrite teardown_falsy by reflexivity.
  now rewrite app_nil_r.
Qed.

Lemma protocol_no_attribute item nextitem body s p :
  active_provider (the_networks s) = Some p ->
  hasattr_snapshot p = false ->
  pytest_runtest_protocol item nextitem body s =
    (fst (run_body body p),
     set_active_provider (Some (snd (run_body body p))) (after_warning s),
     warning_events s ++ [ETestBody]).
Proof.
  intros Hp Hattr.
  rewrite (protocol_setup_returns item nextitem body s _ _ _ (setup_no_attribute s p Hp Hattr)).
  rewrite (body_with_provider body (after_warning s) p)
    by now rewrite active_after_warning.
  rewrite teardown_falsy by reflexivity.
  now rewrite app_nil_r.
Qed.

Lemma protocol_unimplemented item nextitem body s p e p' :
  active_provider (the_networks s) = Some p ->
  hasattr_snapshot p = true ->
  snapshot p = (Raise e, p') ->
  is_NotImplementedError e = true ->
  pytest_runtest_protocol item nextitem body s =
    (fst (run_body body p'),
     set_active_provider (Some (snd (run_body body p')))
       (after_warning (set_active_provider (Some p') s)),
     ESnapshot :: warning_events s ++ [ETestBody]).
Proof.
  intros Hp Hattr Hsnap He.
  rewrite (protocol_setup_returns item nextitem body s _ _ _
             (setup_snapshot_unimplemented s p e p' Hp Hattr Hsnap He)).
  rewrite (body_with_provider body _ p')
    by now rewrite active_after_warning, active_set_active_provider.
  rewrite teardown_falsy by reflexivity.
  now rewrite app_nil_r.
Qed.

Lemma protocol_snapshot_raises item nextitem body s p e p' :
  active_provider (the_networks s) = Some p ->
  hasattr_snapshot p = true ->
  snapshot p = (Raise e, p') ->
  is_NotImplementedError e = false ->
  pytest_runtest_protocol item nextitem body s =
    (Raise e, set_active_provider (Some p') s, [ESnapshot]).
Proof.
  intros Hp Hattr Hsnap He.
  apply protocol_setup_raises. eapply setup_snapshot_raises; eauto.
Qed.

Lemma protocol_falsy_token item nextitem body s p t p' :
  active_provider (the_networks s) = Some p ->
  hasattr_snapshot p = true ->
  snapshot p = (Ret t, p') ->
  truthy t = false ->
  pytest_runtest_protocol item nextitem body s =
    (fst (run_body body p'),
     set_active_provider (Some (snd (run_body body p'))) (set_active_provider (Some p') s),
     [ESnapshot; ETestBody]).
Proof.
  intros Hp Hattr Hsnap Ht.
  rewrite (protocol_setup_returns item nextitem body s _ _ _
             (setup_snapshot_taken s p t p' Hp Hattr Hsnap)).
  rewrite (body_with_provider body _ p') by now rewrite active_set_active_provider.
  now rewrite teardown_falsy.
Qed.

Lemma protocol_truthy_token item nextitem body s p t p' :
  active_provider (the_networks s) = Some p ->
  hasattr_snapshot p = true ->
  snapshot p = (Ret t, p') ->
  truthy t = true ->
  pytest_runtest_protocol item nextitem body s =
    (match fst (revert t (snd (run_body body p'))) with
     | Ret _ => fst (run_body body p')
     | Raise e => Raise e
     end,
     set_active_provider (Some (snd (revert t (snd (run_body body p')))))
       (set_active_provider (Some (snd (run_body body p')))
          (set_active_provider (Some p') s)),
     [ESnapshot; ETestBody; ERevert t]).
Proof.
  intros Hp Hattr Hsnap Ht.
  rewrite (protocol_setup_returns item nextitem body s _ _ _
             (setup_snapshot_taken s p t p' Hp Hattr Hsnap)).
  rewrite (body_with_provider body _ p') by now rewrite active_set_active_provider.
  rewrite (teardown_truthy t _ (snd (run_body body p')) Ht)
    by now rewrite active_set_active_provider.
  now destruct (fst (revert t (snd (run_body body p')))).
Qed.

(** ** What a call of the wrapper does to the runner object *)

Lemma warning_step s :
  (warned s = true /\ after_warning s = s /\ warning_events s = [])
  \/ (warned s = false
      /\ self (after_warning s) = set_warned true (self s)
      /\ warning_events s = [ELog WARNING warning_text]).
Proof.
  unfold after_warning, warning_events.
  destruct (warned s); [left | right]; auto.
Qed.

(** One call either leaves [self] as it was and logs nothing, or it finds
    the flag unset, sets it and logs once. *)
Lemma protocol_frame item nextitem body s :
  let r := pytest_runtest_protocol item nextitem body s in
  (self (final r) = self s /\ count is_warning (events r) = 0)
  \/ (warned s = false
      /\ self (final r) = set_warned true (self s)
      /\ count is_warning (events r) = 1).
Proof.
  destruct (active_provider (the_networks s)) as [p|] eqn:Hp.
  - destruct (hasattr_snapshot p) eqn:Hattr.
    + destruct (snapshot p) as [[t|e] p'] eqn:Hsnap.
      * destruct (truthy t) eqn:Ht.
        -- rewrite (protocol_truthy_token item nextitem body s p t p' Hp Hattr Hsnap Ht).
           left; split; reflexivity.
        -- rewrite (protocol_falsy_token item nextitem body s p t p' Hp Hattr Hsnap Ht).
           left; split; reflexivity.
      * destruct (is_NotImplementedError e) eqn:He.
        -- rewrite (protocol_unimplemented item nextitem body s p e p' Hp Hattr Hsnap He).
           cbv zeta; unfold final, events; cbn [fst snd].
           rewrite self_set_active_provider.
           destruct (warning_step s) as [(Hw & Hs & Hev) | (Hw & Hs & Hev)];
             rewrite Hev; [left | right].
           ++ split; [|reflexivity].
              unfold after_warning. rewrite warned_set_active_provider, Hw. reflexivity.
           ++ repeat split; auto.
              unfold after_warning. rewrite warned_set_active_provider, Hw. reflexivity.
        -- rewrite (protocol_snapshot_raises item nextitem body s p e p' Hp Hattr Hsnap He).
           left; split; reflexivity.
    + rewrite (protocol_no_attribute item nextitem body s p Hp Hattr).
      cbv zeta; unfold final, events; cbn [fst snd].
      rewrite self_set_active_provider.
      destruct (warning_step s) as [(Hw & Hs & Hev) | (Hw & Hs & Hev)];
        rewrite Hev; [left; rewrite Hs | right]; repeat split; auto.
  - rewrite (protocol_no_provider item nextitem body s Hp).
    cbv zeta; unfold final, events; cbn [fst snd].
    destruct (warning_step s) as [(Hw & Hs & Hev) | (Hw & Hs & Hev)];
      rewrite Hev; [left; rewrite Hs | right]; repeat split; auto.
Qed.

Ltac protocol_cases item nextitem body s :=
  let p := fresh "p" in
  let p' := fresh "p'" in
  let t := fresh "t" in
  let e := fresh "e" in
  let Hp := fresh "Hp" in
  let Hattr := fresh "Hattr" in
  let Hsnap := fresh "Hsnap" in
  let Ht := fresh "Ht" in
  let He := fresh "He" in
  destruct (active_provider (the_networks s)) as [p|] eqn:Hp;
  [ destruct (hasattr_snapshot p) eqn:Hattr;
    [ destruct (snapshot p) as [[t|e] p'] eqn:Hsnap;
      [ destruct (truthy t) eqn:Ht;
        [ rewrite (protocol_truthy_token item nextitem body s p t p' Hp Hattr Hsnap Ht)
        | rewrite (protocol_falsy_token item nextitem body s p t p' Hp Hattr Hsnap Ht) ]
      | destruct (is_NotImplementedError e) eqn:He;
        [ rewrite (protocol_unimplemented item nextitem body s p e p' Hp Hattr Hsnap He)
        | rewrite (protocol_snapshot_raises item nextitem body s p e p' Hp Hattr Hsnap He) ] ]
    | rewrite (protocol_no_attribute item nextitem body s p Hp Hattr) ]
  | rewrite (protocol_no_provider item nextitem body s Hp) ];
  unfold result, final, events; cbn [fst snd].

Lemma Forall_warning_events s : Forall wrapper_event (warning_events s).
Proof.
  unfold warning_events. destruct (warned s); repeat constructor.
Qed.

Lemma protocol_events item nextitem body s :
  Forall wrapper_event (events (pytest_runtest_protocol item nextitem body s)).
Proof.
  protocol_cases item nextitem body s;
    repeat first [ apply Forall_cons | apply Forall_app; split
                 | apply Forall_warning_events | apply Forall_nil | exact I ].
Qed.

Lemma count_zero_of_wrapper_events f (l : list Event) :
  (forall e, wrapper_event e -> f e = false) ->
  Forall wrapper_event l -> count f l = 0.
Proof.
  intros Hf Hl. unfold count.
  induction Hl as [|e l He _ IH]; simpl; [reflexivity|].
  now rewrite (Hf e He).
Qed.

Lemma has_active_provider_set o s :
  has_active_provider (set_active_provider o s) = match o with Some _ => true | None => false end.
Proof. unfold has_active_provider. now rewrite active_set_active_provider. Qed.

Lemma has_active_provider_after_warning s :
  has_active_provider (after_warning s) = has_active_provider s.
Proof. unfold has_active_provider. now rewrite active_after_warning. Qed.

(** The wrapper does not change whether a provider is active. *)
Lemma protocol_keeps_activation item nextitem body s :
  has_active_provider (final (pytest_runtest_protocol item nextitem body s))
  = has_active_provider s.
Proof.
  protocol_cases item nextitem body s;
    rewrite ?has_active_provider_set, ?has_active_provider_after_warning;
    unfold has_active_provider; now rewrite ?Hp.
Qed.

(** ** The test loop *)

Lemma run_tests_cons item body rest s :
  run_tests ((item, body) :: rest) s =
    (fst (run_tests rest (final (pytest_runtest_protocol item (nextitem_of rest) body s))),
     events (pytest_runtest_protocol item (nextitem_of rest) body s)
     ++ snd (run_tests rest (final (pytest_runtest_protocol item (nextitem_of rest) body s)))).
Proof.
  simpl. destruct (pytest_runtest_protocol item (nextitem_of rest) body s) as [[r s1] ev1].
  unfold final, events; cbn [fst snd]. now destruct (run_tests rest s1).
Qed.

Lemma protocol_warning_balance item nextitem body s :
  count is_warning (events (pytest_runtest_protocol item nextitem body s))
  + Nat.b2n (warned s)
  = Nat.b2n (warned (final (pytest_runtest_protocol item nextitem body s))).
Proof.
  destruct (protocol_frame item nextitem body s) as [(Hself & Hc) | (Hw & Hself & Hc)];
    unfold warned in *; rewrite Hself, Hc.
  - reflexivity.
  - now rewrite Hw.
Qed.

Lemma run_tests_warning_balance tests s :
  count is_warning (snd (run_tests tests s)) + Nat.b2n (warned s)
  = Nat.b2n (warned (fst (run_tests tests s))).
Proof.
  revert s. induction tests as [|[item body] rest IH]; intros s.
  - reflexivity.
  - rewrite run_tests_cons; cbn [fst snd].
    rewrite count_app, <- IH, <- protocol_warning_balance. lia.
Qed.

Lemma run_tests_keeps_activation tests s :
  has_active_provider (fst (run_tests tests s)) = has_active_provider s.
Proof.
  revert s. induction tests as [|[item body] rest IH]; intros s.
  - reflexivity.
  - rewrite run_tests_cons; cbn [fst snd].
    now rewrite IH, protocol_keeps_activation.
Qed.

Lemma run_tests_events tests s : Forall wrapper_event (snd (run_tests tests s)).
Proof.
  revert s. induction tests as [|[item body] rest IH]; intros s.
  - constructor.
  - rewrite run_tests_cons; cbn [fst snd].
    apply Forall_app; split; [apply protocol_events | apply IH].
Qed.

(** ** Collection finish and session finish, by cases *)

Lemma starts_provider_true res items s :
  starts_provider res items s = true <->
  res = [] /\ items <> [] /\ active_provider (the_networks s) = None.
Proof.
  unfold starts_provider.
  destruct res, items, (active_provider (the_networks s)); simpl;
    intuition congruence.
Qed.

Section Collection.

Variable get_provider_from_choice : string -> Res P.

Lemma collection_finish_outcome_raised items e s :
  pytest_collection_finish get_provider_from_choice items (Raise e) s = (Raise e, s, []).
Proof. reflexivity. Qed.

Lemma collection_finish_skips items res s :
  starts_provider res items s = false ->
  pytest_collection_finish get_provider_from_choice items (Ret res) s = (Ret res, s, []).
Proof.
  intros Hcond.
  unfold pytest_collection_finish, hookwrapper,
    pytest_collection_finish_teardown, bind, get_result, ret, _provider, gets.
  cbv beta iota. unfold starts_provider in Hcond. now rewrite Hcond.
Qed.

Lemma collection_finish_resolution_fails items res s e :
  starts_provider res items s = true ->
  get_provider_from_choice (network_choice_of s) = Raise e ->
  pytest_collection_finish get_provider_from_choice items (Ret res) s = (Raise e, s, [EGetProvider (network_choice_of s)]).
Proof.
  intros Hcond Hres.
  unfold pytest_collection_finish, hookwrapper,
    pytest_collection_finish_teardown, bind, get_result, ret, _provider, gets,
    _network_choice, networks_get_provider_from_choice.
  cbv beta iota. unfold starts_provider in Hcond. rewrite Hcond.
  unfold gets; cbv beta iota. unfold network_choice_of in *. now rewrite Hres.
Qed.

Lemma collection_finish_connects items res s p :
  starts_provider res items s = true ->
  get_provider_from_choice (network_choice_of s) = Ret p ->
  pytest_collection_finish get_provider_from_choice items (Ret res) s =
    (match fst (connect p) with
     | Ret _ => Ret res
     | Raise e => Raise e
     end,
     set_active_provider (Some (snd (connect p))) (set_active_provider (Some p) s),
     [EGetProvider (network_choice_of s); EConnect]).
Proof.
  intros Hcond Hres.
  unfold pytest_collection_finish, hookwrapper,
    pytest_collection_finish_teardown, bind, get_result, ret, _provider, gets,
    _network_choice, networks_get_provider_from_choice, modify, call_provider.
  cbv beta iota. unfold starts_provider in Hcond. rewrite Hcond.
  unfold gets; cbv beta iota. unfold network_choice_of in *. rewrite Hres.
  unfold modify, call_provider; cbv beta iota.
  rewrite active_set_active_provider.
  destruct (connect p) as [[[]|e] p']; reflexivity.
Qed.

End Collection.

Lemma sessionfinish_no_provider s :
  active_provider (the_networks s) = None ->
  pytest_sessionfinish s = (Ret tt, s, []).
Proof.
  intros Hnone. unfold pytest_sessionfinish, bind, _provider, gets, ret.
  now rewrite Hnone.
Qed.

Lemma sessionfinish_with_provider s p :
  active_provider (the_networks s) = Some p ->
  pytest_sessionfinish s =
    (fst (disconnect p), set_active_provider (Some (snd (disconnect p))) s, [EDisconnect]).
Proof.
  intros Hp. unfold pytest_sessionfinish, bind, _provider, gets, ret, call_provider.
  rewrite Hp; cbv beta iota. rewrite Hp. now destruct (disconnect p).
Qed.

(** ** The per-test wrapper *)

(** A truthy token is reverted to after the test body, whatever the body
    reported or raised, and with the token [snapshot()] just returned. *)
Lemma truthy_token_is_reverted item nextitem body s p t p' :
  active_provider (the_networks s) = Some p ->
  hasattr_snapshot p = true ->
  snapshot p = (Ret t, p') ->
  truthy t = true ->
  events (pytest_runtest_protocol item nextitem body s) = [ESnapshot; ETestBody; ERevert t].
Proof.
  intros Hp Hattr Hsnap Ht.
  now rewrite (protocol_truthy_token item nextitem body s p t p' Hp Hattr Hsnap Ht).
Qed.

(** With no provider active the wrapper attempts no snapshot and no revert,
    whether it has warned before or not. *)
Lemma no_provider_no_snapshot_no_revert item nextitem body s :
  active_provider (the_networks s) = None ->
  count is_snapshot (events (pytest_runtest_protocol item nextitem body s)) = 0
  /\ count is_revert (events (pytest_runtest_protocol item nextitem body s)) = 0.
Proof.
  intros Hnone.
  rewrite (protocol_no_provider item nextitem body s Hnone).
  unfold events, warning_events; cbn [snd].
  destruct (warned s); split; reflexivity.
Qed.

(** C2, on the code: with no provider active the wrapper attempts no
    snapshot and no revert, but [hasattr(None, "snapshot")] is false, so the
    branch that warns is taken: a runner that has not warned yet logs the
    warning and sets its flag. *)
Theorem no_provider_triggers_warning item nextitem body s :
  active_provider (the_networks s) = None ->
  warned s = false ->
  let r := pytest_runtest_protocol item nextitem body s in
  events r = [ELog WARNING warning_text; ETestBody]
  /\ count is_snapshot (events r) = 0
  /\ count is_revert (events r) = 0
  /\ warned (final r) = true
  /\ result r = run_body_unconnected body.
Proof.
  intros Hnone Hw. cbv zeta.
  rewrite (protocol_no_provider item nextitem body s Hnone).
  unfold result, final, events; cbn [fst snd].
  unfold warning_events. rewrite Hw.
  repeat split. apply warned_after_warning.
Qed.

(** C3, on the code: when [snapshot()] succeeds with a token that Python
    counts as false (the integer 0, an empty string), [if snapshot_id:]
    skips the revert: the wrapper calls [snapshot], runs the test body, and
    calls nothing else. *)
Theorem falsy_token_is_never_reverted item nextitem body s p t p' :
  active_provider (the_networks s) = Some p ->
  hasattr_snapshot p = true ->
  snapshot p = (Ret t, p') ->
  truthy t = false ->
  let r := pytest_runtest_protocol item nextitem body s in
  events r = [ESnapshot; ETestBody]
  /\ count is_revert (events r) = 0
  /\ result r = fst (run_body body p').
Proof.
  intros Hp Hattr Hsnap Ht. cbv zeta.
  rewrite (protocol_falsy_token item nextitem body s p t p' Hp Hattr Hsnap Ht).
  repeat split.
Qed.

(** C4: when [snapshot()] raises [NotImplementedError], the wrapper does not
    raise it: the warning routine runs (it logs unless the runner has warned
    before, and the flag is set afterwards), the test body runs and its own
    report or exception is what the wrapper delivers, and [revert] is not
    called. *)
Theorem snapshot_not_implemented_degrades item nextitem body s p e p' :
  active_provider (the_networks s) = Some p ->
  hasattr_snapshot p = true ->
  snapshot p = (Raise e, p') ->
  is_NotImplementedError e = true ->
  let r := pytest_runtest_protocol item nextitem body s in
  result r = fst (run_body body p')
  /\ events r = ESnapshot :: warning_events s ++ [ETestBody]
  /\ warned (final r) = true
  /\ count is_revert (events r) = 0.
Proof.
  intros Hp Hattr Hsnap He. cbv zeta.
  rewrite (protocol_unimplemented item nextitem body s p e p' Hp Hattr Hsnap He).
  unfold result, final, events; cbn [fst snd].
  repeat split.
  - unfold warned. rewrite self_set_active_provider.
    apply (warned_after_warning (set_active_provider (Some p') s)).
  - unfold warning_events. destruct (warned s); reflexivity.
Qed.

(** C10: when [snapshot()] raises anything that is not a
    [NotImplementedError], the wrapper raises that exception; [snapshot] is
    the only call it made (no warning, no test body, no revert), and the
    runner object is as it was. *)
Theorem snapshot_other_error_propagates item nextitem body s p e p' :
  active_provider (the_networks s) = Some p ->
  hasattr_snapshot p = true ->
  snapshot p = (Raise e, p') ->
  is_NotImplementedError e = false ->
  let r := pytest_runtest_protocol item nextitem body s in
  result r = Raise e
  /\ events r = [ESnapshot]
  /\ self (final r) = self s.
Proof.
  intros Hp Hattr Hsnap He. cbv zeta.
  rewrite (protocol_snapshot_raises item nextitem body s p e p' Hp Hattr Hsnap He).
  repeat split.
Qed.

(** C9: a call of the wrapper leaves the runner's [config], [project] and
    [networks] reference, and so its network choice, as they were; the
    warned flag is as it was or has gone from false to true. *)
Theorem runtest_protocol_frame item nextitem body s :
  let r := pytest_runtest_protocol item nextitem body s in
  config (self (final r)) = config (self s)
  /\ project (self (final r)) = project (self s)
  /\ networks (self (final r)) = networks (self s)
  /\ result (_network_choice (final r)) = result (_network_choice s)
  /\ (warned (final r) = warned s \/ (warned s = false /\ warned (final r) = true)).
Proof.
  cbv zeta.
  destruct (protocol_frame item nextitem body s) as [(Hself & _) | (Hw & Hself & _)];
    unfold _network_choice, gets, result, warned in *; cbn [fst snd]; rewrite Hself.
  - repeat split. now left.
  - repeat split. right. now split.
Qed.

(** C5: over any run of tests the warning is logged at most once: the
    number of warnings logged plus one if the runner had warned before is
    one if it has warned afterwards; so a flag that is set stays set, and
    from then on nothing is logged. *)
Theorem warning_at_most_once tests s :
  let r := run_tests tests s in
  count is_warning (snd r) + Nat.b2n (warned s) = Nat.b2n (warned (fst r))
  /\ count is_warning (snd r) <= 1
  /\ (warned s = true -> warned (fst r) = true /\ count is_warning (snd r) = 0).
Proof.
  cbv zeta. pose proof (run_tests_warning_balance tests s) as Hbal.
  split; [exact Hbal|].
  destruct (warned s), (warned (fst (run_tests tests s))); simpl in Hbal;
    repeat split; intros; try lia; congruence.
Qed.

(** C8: the warning routine logs nothing, or one message at warning level
    with the text below; and every message a call of the wrapper logs is
    that one. *)
Theorem warning_message_exact s :
  events (_warn_for_unimplemented_snapshot s)
  = (if warned s then []
     else [ELog WARNING
             "The connected provider does not support snapshotting. Tests will not be completely isolated."])
  /\ forall item nextitem body e,
       In e (events (pytest_runtest_protocol item nextitem body s)) ->
       is_log e = true ->
       e = ELog WARNING
             "The connected provider does not support snapshotting. Tests will not be completely isolated.".
Proof.
  split.
  - rewrite warn_run. reflexivity.
  - intros item nextitem body e Hin Hlog.
    pose proof (protocol_events item nextitem body s) as Hall.
    rewrite Forall_forall in Hall. specialize (Hall e Hin).
    destruct e as [| | | | |[] msg|]; simpl in *; try discriminate; try contradiction.
    now subst msg.
Qed.

(** ** Connecting and disconnecting *)

Section Lifecycle.

Variable get_provider_from_choice : string -> Res P.

(** The calls of collection finish: none, the resolution alone when it
    fails, or the resolution and [connect]. *)
Lemma collection_finish_events items outcome s :
  let ev := events (pytest_collection_finish get_provider_from_choice items outcome s) in
  ev = [] \/ ev = [EGetProvider (network_choice_of s)]
  \/ ev = [EGetProvider (network_choice_of s); EConnect].
Proof.
  cbv zeta. destruct outcome as [res|e]; [|now left].
  destruct (starts_provider res items s) eqn:Hcond.
  - destruct (get_provider_from_choice (network_choice_of s)) as [p|e] eqn:Hres.
    + rewrite (collection_finish_connects _ items res s p Hcond Hres). now right; right.
    + rewrite (collection_finish_resolution_fails _ items res s e Hcond Hres). now right; left.
  - rewrite (collection_finish_skips _ items res s Hcond). now left.
Qed.

Lemma sessionfinish_disconnects s :
  count is_disconnect (events (pytest_sessionfinish s)) = Nat.b2n (has_active_provider s).
Proof.
  unfold has_active_provider.
  destruct (active_provider (the_networks s)) as [p|] eqn:Hp.
  - now rewrite (sessionfinish_with_provider s p Hp).
  - now rewrite (sessionfinish_no_provider s Hp).
Qed.

(** C6, as the code has it: [connect()] is called, once, exactly when the
    wrapped collection-finish hooks returned no result and did not raise, at
    least one test was collected, no provider is active, and the network
    manager resolves a provider for the configured network choice; that
    provider is then the active one.  With no test collected, or with a
    provider already active, the hook calls nothing and changes nothing. *)
Theorem collection_finish_connects_lazily items outcome s :
  let r := pytest_collection_finish get_provider_from_choice items outcome s in
  (count is_connect (events r) = 1 <->
     outcome = Ret []
     /\ items <> []
     /\ active_provider (the_networks s) = None
     /\ exists p, get_provider_from_choice (network_choice_of s) = Ret p)
  /\ count is_connect (events r) <= 1
  /\ (forall p,
        outcome = Ret [] ->
        items <> [] ->
        active_provider (the_networks s) = None ->
        get_provider_from_choice (network_choice_of s) = Ret p ->
        events r = [EGetProvider (network_choice_of s); EConnect]
        /\ active_provider (the_networks (final r)) = Some (snd (connect p)))
  /\ (items = [] -> events r = [] /\ final r = s)
  /\ (has_active_provider s = true -> events r = [] /\ final r = s).
Proof.
  cbv zeta.
  assert (Hgo : forall res p,
             starts_provider res items s = true ->
             get_provider_from_choice (network_choice_of s) = Ret p ->
             events (pytest_collection_finish get_provider_from_choice items (Ret res) s)
             = [EGetProvider (network_choice_of s); EConnect]
             /\ active_provider
                  (the_networks
                     (final (pytest_collection_finish get_provider_from_choice
                               items (Ret res) s)))
                = Some (snd (connect p))).
  { intros res p Hcond Hres.
    rewrite (collection_finish_connects _ items res s p Hcond Hres).
    unfold final, events; cbn [fst snd].
    now rewrite active_set_active_provider. }
  assert (Hstay : forall res,
             starts_provider res items s = false ->
             events (pytest_collection_finish get_provider_from_choice items (Ret res) s) = []
             /\ final (pytest_collection_finish get_provider_from_choice items (Ret res) s) = s).
  { intros res Hcond. now rewrite (collection_finish_skips _ items res s Hcond). }
  refine (conj (conj _ _) (conj _ (conj _ (conj _ _)))).
  - (* connect was called: the condition held *)
    destruct outcome as [res|e]; [|discriminate].
    destruct (starts_provider res items s) eqn:Hcond.
    + intros Hcount. apply starts_provider_true in Hcond.
      destruct Hcond as (-> & Hitems & Hnone).
      refine (conj eq_refl (conj Hitems (conj Hnone _))).
      destruct (get_provider_from_choice (network_choice_of s)) as [p|e] eqn:Hres;
        [now exists p|].
      exfalso.
      assert (Hc : starts_provider [] items s = true)
        by (apply starts_provider_true; auto).
      revert Hcount.
      rewrite (collection_finish_resolution_fails _ items [] s e Hc Hres).
      discriminate.
    + rewrite (proj1 (Hstay res Hcond)). discriminate.
  - (* the condition holds: connect is called *)
    intros (-> & Hitems & Hnone & p & Hres).
    assert (Hc : starts_provider [] items s = true)
      by (apply starts_provider_true; auto).
    now rewrite (proj1 (Hgo [] p Hc Hres)).
  - destruct (collection_finish_events items outcome s) as [-> | [-> | ->]];
      cbv; lia.
  - intros p Hout Hitems Hnone Hres. subst outcome.
    apply Hgo; auto. apply starts_provider_true; auto.
  - intros ->. destruct outcome as [res|e]; [|split; reflexivity].
    apply Hstay. unfold starts_provider. now rewrite andb_false_r.
  - intros Hact. destruct outcome as [res|e]; [|split; reflexivity].
    apply Hstay. unfold starts_provider, has_active_provider in *.
    rewrite Hact. apply andb_false_r.
Qed.

(** C7: session finish calls [disconnect()] exactly once, on the active
    provider, when one is active: it delivers what that call returned or
    raised and leaves the provider as the call left it; with no provider
    active it calls nothing and changes nothing.  A provider that is active
    after collection finish is still active at session finish, after any run
    of tests (none, when the run was aborted), and one that was not is not;
    so [disconnect()] is called once if a provider was activated and never
    otherwise.  Collection finish and the per-test wrapper never call it. *)
Theorem disconnect_once_at_session_finish items outcome tests s :
  let started :=
    final (pytest_collection_finish get_provider_from_choice items outcome s) in
  let finished := fst (run_tests tests started) in
  (forall s0 p,
     active_provider (the_networks s0) = Some p ->
     pytest_sessionfinish s0
     = (fst (disconnect p), set_active_provider (Some (snd (disconnect p))) s0,
        [EDisconnect]))
  /\ (forall s0,
        active_provider (the_networks s0) = None ->
        pytest_sessionfinish s0 = (Ret tt, s0, []))
  /\ has_active_provider finished = has_active_provider started
  /\ count is_disconnect (events (pytest_sessionfinish finished))
     = Nat.b2n (has_active_provider started)
  /\ count is_disconnect
       (events (pytest_collection_finish get_provider_from_choice items outcome s)) = 0
  /\ count is_disconnect (snd (run_tests tests started)) = 0.
Proof.
  cbv zeta.
  assert (Hwrap : forall e, wrapper_event e -> is_disconnect e = false)
    by (intros [| | | | |[] msg|]; simpl; intros; auto; contradiction).
  refine (conj _ (conj _ (conj _ (conj _ (conj _ _))))).
  - intros s0 p Hp. exact (sessionfinish_with_provider s0 p Hp).
  - intros s0 Hnone. exact (sessionfinish_no_provider s0 Hnone).
  - apply run_tests_keeps_activation.
  - rewrite sessionfinish_disconnects. now rewrite run_tests_keeps_activation.
  - destruct (collection_finish_events items outcome s) as [-> | [-> | ->]]; reflexivity.
  - apply (count_zero_of_wrapper_events is_disconnect _ Hwrap (run_tests_events tests _)).
Qed.

End Lifecycle.

(** ** Further properties of the per-test wrapper *)

Lemma warning_events_no_revert s t : ~ In (ERevert t) (warning_events s).
Proof.
  unfold warning_events. destruct (warned s); simpl; [tauto|].
  intros [Heq|[]]; discriminate.
Qed.

(** Whenever the wrapper calls [revert], the token is the one [snapshot()]
    returned in this same call, the token is truthy, and the calls of the
    wrapper are [snapshot], the test body, [revert], in this order: a token
    of an earlier test is never used. *)
Theorem revert_only_with_fresh_token item nextitem body s t :
  In (ERevert t) (events (pytest_runtest_protocol item nextitem body s)) ->
  exists p p',
    active_provider (the_networks s) = Some p
    /\ snapshot p = (Ret t, p')
    /\ truthy t = true
    /\ events (pytest_runtest_protocol item nextitem body s)
       = [ESnapshot; ETestBody; ERevert t].
Proof.
  destruct (active_provider (the_networks s)) as [p|] eqn:Hp.
  - destruct (hasattr_snapshot p) eqn:Hattr.
    + destruct (snapshot p) as [[t0|e] p'] eqn:Hsnap.
      * destruct (truthy t0) eqn:Ht.
        -- rewrite (protocol_truthy_token item nextitem body s p t0 p' Hp Hattr Hsnap Ht).
           unfold events; cbn [snd]. intros Hin.
           assert (t0 = t) as ->.
           { simpl in Hin. destruct Hin as [Hin|[Hin|[Hin|[]]]];
               try discriminate. now injection Hin. }
           exists p, p'. auto.
        -- rewrite (protocol_falsy_token item nextitem body s p t0 p' Hp Hattr Hsnap Ht).
           unfold events; cbn [snd]. simpl.
           intros [Hin|[Hin|[]]]; discriminate.
      * destruct (is_NotImplementedError e) eqn:He.
        -- rewrite (protocol_unimplemented item nextitem body s p e p' Hp Hattr Hsnap He).
           unfold events; cbn [snd]. intros [Hin|Hin]; [discriminate|].
           apply in_app_or in Hin. destruct Hin as [Hin|[Hin|[]]];
             [now apply warning_events_no_revert in Hin | discriminate].
        -- rewrite (protocol_snapshot_raises item nextitem body s p e p' Hp Hattr Hsnap He).
           unfold events; cbn [snd]. intros [Hin|[]]; discriminate.
    + rewrite (protocol_no_attribute item nextitem body s p Hp Hattr).
      unfold events; cbn [snd]. intros Hin.
      apply in_app_or in Hin. destruct Hin as [Hin|[Hin|[]]];
        [now apply warning_events_no_revert in Hin | discriminate].
  - rewrite (protocol_no_provider item nextitem body s Hp).
    unfold events; cbn [snd]. intros Hin.
    apply in_app_or in Hin. destruct Hin as [Hin|[Hin|[]]];
      [now apply warning_events_no_revert in Hin | discriminate].
Qed.

(** With a truthy token the wrapper delivers the test's own report or
    exception when [revert] returns, and the exception of [revert] when it
    raises: a failing revert takes the place of the test's outcome. *)
Theorem revert_failure_replaces_outcome item nextitem body s p t p' :
  active_provider (the_networks s) = Some p ->
  hasattr_snapshot p = true ->
  snapshot p = (Ret t, p') ->
  truthy t = true ->
  result (pytest_runtest_protocol item nextitem body s)
  = match fst (revert t (snd (run_body body p'))) with
    | Ret _ => fst (run_body body p')
    | Raise e => Raise e
    end.
Proof.
  intros Hp Hattr Hsnap Ht.
  now rewrite (protocol_truthy_token item nextitem body s p t p' Hp Hattr Hsnap Ht).
Qed.

(** A provider without the [snapshot] attribute is never asked for a
    snapshot or a revert: the warning routine runs, then the test body, and
    the wrapper delivers the test's own outcome. *)
Theorem missing_attribute_degrades item nextitem body s p :
  active_provider (the_networks s) = Some p ->
  hasattr_snapshot p = false ->
  let r := pytest_runtest_protocol item nextitem body s in
  events r = warning_events s ++ [ETestBody]
  /\ result r = fst (run_body body p)
  /\ warned (final r) = true
  /\ count is_snapshot (events r) = 0
  /\ count is_revert (events r) = 0.
Proof.
  intros Hp Hattr. cbv zeta.
  rewrite (protocol_no_attribute item nextitem body s p Hp Hattr).
  unfold result, final, events; cbn [fst snd].
  refine (conj eq_refl (conj eq_refl (conj _ _))).
  - unfold warned. rewrite self_set_active_provider. apply (warned_after_warning s).
  - unfold warning_events. destruct (warned s); split; reflexivity.
Qed.

(** When [snapshot()] raises something other than [NotImplementedError],
    the wrapper does not run the test body: [snapshot] was its only call and
    it raises that exception.  In every other case it runs the test body
    exactly once. *)
Theorem test_body_runs_once item nextitem body s :
  let r := pytest_runtest_protocol item nextitem body s in
  (forall p e p',
     active_provider (the_networks s) = Some p ->
     hasattr_snapshot p = true ->
     snapshot p = (Raise e, p') ->
     is_NotImplementedError e = false ->
     count is_test_body (events r) = 0
     /\ events r = [ESnapshot]
     /\ result r = Raise e)
  /\ ((~ exists p e p',
          active_provider (the_networks s) = Some p
          /\ hasattr_snapshot p = true
          /\ snapshot p = (Raise e, p')
          /\ is_NotImplementedError e = false) ->
      count is_test_body (events r) = 1).
Proof.
  cbv zeta. split.
  - intros p e p' Hp Hattr Hsnap He.
    rewrite (protocol_snapshot_raises item nextitem body s p e p' Hp Hattr Hsnap He).
    refine (conj eq_refl (conj eq_refl eq_refl)).
  - intros Hnot.
    destruct (active_provider (the_networks s)) as [p|] eqn:Hp.
    + destruct (hasattr_snapshot p) eqn:Hattr.
      * destruct (snapshot p) as [[t|e] p'] eqn:Hsnap.
        -- destruct (truthy t) eqn:Ht.
           ++ now rewrite (protocol_truthy_token item nextitem body s p t p'
                             Hp Hattr Hsnap Ht).
           ++ now rewrite (protocol_falsy_token item nextitem body s p t p'
                             Hp Hattr Hsnap Ht).
        -- destruct (is_NotImplementedError e) eqn:He.
           ++ rewrite (protocol_unimplemented item nextitem body s p e p'
                         Hp Hattr Hsnap He).
              unfold events, warning_events; cbn [snd]. now destruct (warned s).
           ++ exfalso. apply Hnot. exists p, e, p'. auto.
      * rewrite (protocol_no_attribute item nextitem body s p Hp Hattr).
        unfold events, warning_events; cbn [snd]. now destruct (warned s).
    + rewrite (protocol_no_provider item nextitem body s Hp).
      unfold events, warning_events; cbn [snd]. now destruct (warned s).
Qed.

Lemma protocol_snapshot_revert_counts item nextitem body s :
  count is_revert (events (pytest_runtest_protocol item nextitem body s))
  <= count is_snapshot (events (pytest_runtest_protocol item nextitem body s))
  /\ count is_snapshot (events (pytest_runtest_protocol item nextitem body s)) <= 1.
Proof.
  protocol_cases item nextitem body s;
    unfold warning_events; destruct (warned s); cbv; lia.
Qed.

(** Over any run of tests the wrapper never reverts more often than it has
    taken snapshots, and it takes at most one snapshot per test. *)
Theorem reverts_never_outnumber_snapshots tests s :
  count is_revert (snd (run_tests tests s)) <= count is_snapshot (snd (run_tests tests s))
  /\ count is_snapshot (snd (run_tests tests s)) <= List.length tests.
Proof.
  revert s. induction tests as [|[item body] rest IH]; intros s.
  - split; apply le_n.
  - rewrite run_tests_cons; cbn [fst snd]. rewrite !count_app.
    pose proof (protocol_snapshot_revert_counts item (nextitem_of rest) body s) as [Hr Hs].
    destruct (IH (final (pytest_runtest_protocol item (nextitem_of rest) body s)))
      as [IHr IHs].
    simpl List.length. lia.
Qed.

(** A runner as [__init__] leaves it, driving tests on a provider without
    the [snapshot] attribute, logs the warning exactly once, however many
    tests follow the first and whatever they do. *)
Theorem fresh_runner_warns_exactly_once cfg proj nets item body rest s p :
  self s = init cfg proj nets ->
  active_provider (the_networks s) = Some p ->
  hasattr_snapshot p = false ->
  count is_warning (snd (run_tests ((item, body) :: rest) s)) = 1.
Proof.
  intros Hself Hp Hattr.
  rewrite run_tests_cons; cbn [fst snd]. rewrite count_app.
  pose proof (run_tests_warning_balance rest
                (final (pytest_runtest_protocol item (nextitem_of rest) body s))) as Hbal.
  revert Hbal.
  rewrite (protocol_no_attribute item (nextitem_of rest) body s p Hp Hattr).
  unfold final, events; cbn [fst snd].
  assert (Hw : warned s = false) by (unfold warned; now rewrite Hself).
  assert (Hw' : warned (set_active_provider (Some (snd (run_body body p))) (after_warning s))
                = true)
    by (rewrite warned_set_active_provider; apply warned_after_warning).
  rewrite Hw'. unfold warning_events. rewrite Hw. cbn [Nat.b2n].
  intros Hbal.
  destruct (warned (fst (run_tests rest _))); cbn [Nat.b2n] in Hbal;
    change (count is_warning ([ELog WARNING warning_text] ++ [ETestBody])) with 1; lia.
Qed.

(** The test loop leaves the activation of the provider alone: it never
    resolves a provider and never connects, and a provider is active after
    a run exactly if one was active before. *)
Theorem test_loop_keeps_activation tests s :
  count is_connect (snd (run_tests tests s)) = 0
  /\ count is_resolution (snd (run_tests tests s)) = 0
  /\ has_active_provider (fst (run_tests tests s)) = has_active_provider s.
Proof.
  refine (conj _ (conj _ (run_tests_keeps_activation tests s))).
  - apply count_zero_of_wrapper_events; [|apply run_tests_events].
    intros [| | | | |[] msg|]; simpl; intros; auto; contradiction.
  - apply count_zero_of_wrapper_events; [|apply run_tests_events].
    intros [| | | | |[] msg|]; simpl; intros; auto; contradiction.
Qed.

(** ** Further properties of connecting and disconnecting *)

Section MoreLifecycle.

Variable get_provider_from_choice : string -> Res P.

(** When [connect()] raises, collection finish raises that exception, and
    the provider it resolved is already recorded as the active one: the
    assignment comes before the call. *)
Theorem failed_connect_leaves_provider_active items s p e :
  items <> [] ->
  active_provider (the_networks s) = None ->
  get_provider_from_choice (network_choice_of s) = Ret p ->
  fst (connect p) = Raise e ->
  let r := pytest_collection_finish get_provider_from_choice items (Ret []) s in
  result r = Raise e
  /\ active_provider (the_networks (final r)) = Some (snd (connect p))
  /\ events r = [EGetProvider (network_choice_of s); EConnect].
Proof.
  intros Hitems Hnone Hres Hconn. cbv zeta.
  assert (Hc : starts_provider [] items s = true)
    by (apply starts_provider_true; auto).
  rewrite (collection_finish_connects _ items [] s p Hc Hres).
  unfold result, final, events; cbn [fst snd].
  rewrite Hconn, active_set_active_provider. auto.
Qed.

(** When the network manager cannot resolve the configured choice,
    collection finish raises that exception; it has not called [connect()]
    and no provider is recorded: the state is as before. *)
Theorem resolution_failure_propagates items s e :
  items <> [] ->
  active_provider (the_networks s) = None ->
  get_provider_from_choice (network_choice_of s) = Raise e ->
  let r := pytest_collection_finish get_provider_from_choice items (Ret []) s in
  result r = Raise e
  /\ final r = s
  /\ events r = [EGetProvider (network_choice_of s)].
Proof.
  intros Hitems Hnone Hres. cbv zeta.
  assert (Hc : starts_provider [] items s = true)
    by (apply starts_provider_true; auto).
  rewrite (collection_finish_resolution_fails _ items [] s e Hc Hres). auto.
Qed.

(** Collection finish hands on what the wrapped hooks produced: when it
    returns, it returns their results; when they raised, it raises their
    exception, calls nothing and starts no provider, even with tests
    collected and no provider active. *)
Theorem collection_finish_delivers_outcome items outcome s :
  let r := pytest_collection_finish get_provider_from_choice items outcome s in
  (forall res, result r = Ret res -> outcome = Ret res)
  /\ (forall e, outcome = Raise e -> result r = Raise e /\ events r = [] /\ final r = s).
Proof.
  cbv zeta. split.
  - intros res0. destruct outcome as [res|e]; [|discriminate].
    destruct (starts_provider res items s) eqn:Hcond.
    + destruct (get_provider_from_choice (network_choice_of s)) as [p|e] eqn:Hres.
      * rewrite (collection_finish_connects _ items res s p Hcond Hres).
        unfold result; cbn [fst]. now destruct (fst (connect p)).
      * rewrite (collection_finish_resolution_fails _ items res s e Hcond Hres).
        discriminate.
    + now rewrite (collection_finish_skips _ items res s Hcond).
  - intros e ->. auto.
Qed.

Lemma collection_finish_connect_activates items outcome s :
  count is_connect (events (pytest_collection_finish get_provider_from_choice items outcome s))
  <= Nat.b2n (has_active_provider
                (final (pytest_collection_finish get_provider_from_choice items outcome s))).
Proof.
  destruct outcome as [res|e]; [|apply Nat.le_0_l].
  destruct (starts_provider res items s) eqn:Hcond.
  - destruct (get_provider_from_choice (network_choice_of s)) as [p|e] eqn:Hres.
    + rewrite (collection_finish_connects _ items res s p Hcond Hres).
      unfold final, events; cbn [fst snd]. rewrite has_active_provider_set.
      apply le_n.
    + rewrite (collection_finish_resolution_fails _ items res s e Hcond Hres).
      apply Nat.le_0_l.
  - rewrite (collection_finish_skips _ items res s Hcond). apply Nat.le_0_l.
Qed.

(** Collection finish calls [connect()] at most once, and the per-test
    wrapper and session finish never call it.  Whenever collection finish
    has called [connect()], also when that call raised, the provider it
    called it on is recorded as active, and a session finish that follows,
    after any run of tests (none, when the run was aborted), calls
    [disconnect()] once, on the provider then active. *)
Theorem connect_is_matched_by_disconnect items outcome tests s :
  let r := pytest_collection_finish get_provider_from_choice items outcome s in
  let finished := fst (run_tests tests (final r)) in
  count is_connect (events r) <= 1
  /\ count is_connect (snd (run_tests tests (final r))) = 0
  /\ count is_connect (events (pytest_sessionfinish finished)) = 0
  /\ (count is_connect (events r) = 1 ->
      (exists p0,
         get_provider_from_choice (network_choice_of s) = Ret p0
         /\ active_provider (the_networks (final r)) = Some (snd (connect p0)))
      /\ exists p,
           active_provider (the_networks finished) = Some p
           /\ pytest_sessionfinish finished
              = (fst (disconnect p),
                 set_active_provider (Some (snd (disconnect p))) finished,
                 [EDisconnect])).
Proof.
  cbv zeta.
  assert (Hc : forall e, wrapper_event e -> is_connect e = false)
    by (intros [| | | | |[] msg|]; simpl; intros; auto; contradiction).
  assert (Hfin : forall s0, count is_connect (events (pytest_sessionfinish s0)) = 0).
  { intros s0. destruct (active_provider (the_networks s0)) as [p|] eqn:Hp.
    - now rewrite (sessionfinish_with_provider s0 p Hp).
    - now rewrite (sessionfinish_no_provider s0 Hp). }
  refine (conj _ (conj _ (conj (Hfin _) _))).
  - destruct (collection_finish_events get_provider_from_choice items outcome s)
      as [-> | [-> | ->]]; cbv; lia.
  - apply (count_zero_of_wrapper_events is_connect _ Hc (run_tests_events tests _)).
  - intros Hone. split.
    + destruct outcome as [res|e]; [|discriminate Hone].
      destruct (starts_provider res items s) eqn:Hcond.
      * destruct (get_provider_from_choice (network_choice_of s)) as [p0|e] eqn:Hres.
        -- exists p0. split; [reflexivity|].
           rewrite (collection_finish_connects _ items res s p0 Hcond Hres).
           unfold final; cbn [fst snd]. apply active_set_active_provider.
        -- revert Hone.
           rewrite (collection_finish_resolution_fails _ items res s e Hcond Hres).
           discriminate.
      * revert Hone. rewrite (collection_finish_skips _ items res s Hcond).
        discriminate.
    + pose proof (collection_finish_connect_activates items outcome s) as Hact.
      rewrite Hone in Hact.
      pose proof (run_tests_keeps_activation tests
                    (final (pytest_collection_finish get_provider_from_choice
                              items outcome s))) as Hkeep.
      unfold has_active_provider in Hkeep, Hact.
      destruct (active_provider
                  (the_networks
                     (fst (run_tests tests
                             (final (pytest_collection_finish get_provider_from_choice
                                       items outcome s)))))) as [p|] eqn:Hp.
      * exists p. split; [reflexivity|].
        exact (sessionfinish_with_provider _ p Hp).
      * exfalso.
        destruct (active_provider
                    (the_networks
                       (final (pytest_collection_finish get_provider_from_choice
                                 items outcome s))));
          [discriminate Hkeep | cbn in Hact; lia].
Qed.

End MoreLifecycle.

(** Session finish delivers what [disconnect()] returned or raised, and it
    does not clear the active provider: a provider is active afterwards
    exactly if one was before, so a second session finish makes the same
    calls again. *)
Theorem sessionfinish_never_clears_provider s :
  has_active_provider (final (pytest_sessionfinish s)) = has_active_provider s
  /\ events (pytest_sessionfinish (final (pytest_sessionfinish s)))
     = events (pytest_sessionfinish s)
  /\ (forall p, active_provider (the_networks s) = Some p ->
       result (pytest_sessionfinish s) = fst (disconnect p)).
Proof.
  destruct (active_provider (the_networks s)) as [p|] eqn:Hp.
  - rewrite (sessionfinish_with_provider s p Hp).
    unfold result, final, events; cbn [fst snd].
    rewrite (sessionfinish_with_provider _ (snd (disconnect p))
               (active_set_active_provider _ _)).
    rewrite has_active_provider_set. unfold has_active_provider. rewrite Hp.
    refine (conj eq_refl (conj eq_refl _)).
    intros p0 Heq. now injection Heq as ->.
  - rewrite (sessionfinish_no_provider s Hp).
    unfold result, final, events; cbn [fst snd].
    rewrite (sessionfinish_no_provider s Hp).
    refine (conj eq_refl (conj eq_refl _)). discriminate.
Qed.

End Properties.

(** * Session start *)

Section SessionStart.

(** ** Substrings *)

Lemma startswith_spec needle : forall hay,
  startswith hay needle = true <-> exists post, hay = (needle ++ post)%string.
Proof.
  induction needle as [|a needle IH]; intros hay; simpl.
  - split; [intros _; now exists hay | reflexivity].
  - destruct hay as [|b hay].
    + split; [discriminate | intros [post Heq]; discriminate].
    + rewrite andb_true_iff, Ascii.eqb_eq, IH. split.
      * intros [-> [post ->]]. now exists post.
      * intros [post Heq]. injection Heq as -> ->. split; [reflexivity | now exists post].
Qed.

Lemma contains_spec needle : forall hay,
  contains needle hay = true
  <-> exists pre post, hay = (pre ++ needle ++ post)%string.
Proof.
  induction hay as [|c hay IH]; simpl; rewrite orb_true_iff, startswith_spec.
  - split.
    + intros [[post Heq] | Hfalse]; [|discriminate]. now exists ""%string, post.
    + intros [pre [post Heq]]. left. destruct pre; [|discriminate]. now exists post.
  - rewrite IH. split.
    + intros [[post Heq] | [pre [post Heq]]].
      * now exists ""%string, post.
      * exists (String c pre), post. simpl. now rewrite Heq.
    + intros [pre [post Heq]]. destruct pre as [|c' pre].
      * left. now exists post.
      * right. simpl in Heq. injection Heq as _ ->. now exists pre, post.
Qed.

(** ** Dicts *)

Lemma dict_get_remove_same {V : Type} k (d : Dict V) : dict_get k (dict_remove k d) = None.
Proof.
  induction d as [|[k' v] d IH]; simpl; [reflexivity|].
  destruct (String.eqb k' k) eqn:E; simpl; [exact IH | now rewrite E].
Qed.

Lemma dict_get_remove_other {V : Type} k k' (d : Dict V) :
  k' <> k -> dict_get k' (dict_remove k d) = dict_get k' d.
Proof.
  intros Hne. induction d as [|[k0 v] d IH]; simpl; [reflexivity|].
  destruct (String.eqb k0 k) eqn:E; simpl.
  - apply String.eqb_eq in E. subst k0.
    destruct (String.eqb k k') eqn:E'; [|exact IH].
    apply String.eqb_eq in E'. congruence.
  - now rewrite IH.
Qed.

Lemma dict_set_absent {V : Type} k (v : V) (d : Dict V) :
  dict_get k d = None -> dict_set k v d = d ++ [(k, v)].
Proof.
  induction d as [|[k' v'] d IH]; simpl; [reflexivity|].
  destruct (String.eqb k' k); [discriminate|].
  intros Hnone. now rewrite IH.
Qed.

Lemma dict_get_set_same {V : Type} k (v : V) (d : Dict V) :
  dict_get k (dict_set k v d) = Some v.
Proof.
  induction d as [|[k' v'] d IH]; simpl.
  - now rewrite String.eqb_refl.
  - destruct (String.eqb k' k) eqn:E; simpl.
    + now rewrite String.eqb_refl.
    + now rewrite E.
Qed.

Lemma dict_get_set_other {V : Type} k k' (v : V) (d : Dict V) :
  k' <> k -> dict_get k' (dict_set k v d) = dict_get k' d.
Proof.
  intros Hne. induction d as [|[k0 v0] d IH]; simpl.
  - destruct (String.eqb k k') eqn:E; [|reflexivity].
    apply String.eqb_eq in E. congruence.
  - destruct (String.eqb k0 k) eqn:E; simpl.
    + apply String.eqb_eq in E. subst k0.
      destruct (String.eqb k k') eqn:E'; [|reflexivity].
      apply String.eqb_eq in E'. congruence.
    + now rewrite IH.
Qed.

Lemma dict_remove_idempotent {V : Type} k (d : Dict V) :
  dict_remove k (dict_remove k d) = dict_remove k d.
Proof.
  unfold dict_remove. induction d as [|[k' v] d IH]; simpl; [reflexivity|].
  destruct (String.eqb k' k) eqn:E; simpl; [exact IH|].
  rewrite E. simpl. now rewrite IH.
Qed.

Lemma dict_remove_set {V : Type} k (v : V) (d : Dict V) :
  dict_remove k (dict_set k v (dict_remove k d)) = dict_remove k d.
Proof.
  rewrite dict_set_absent by apply dict_get_remove_same.
  unfold dict_remove at 1. rewrite filter_app. fold (dict_remove k (dict_remove k d)).
  rewrite dict_remove_idempotent. simpl. rewrite String.eqb_refl. simpl.
  apply app_nil_r.
Qed.

Lemma filter_idempotent {A : Type} (f : A -> bool) (l : list A) :
  filter f (filter f l) = filter f l.
Proof.
  induction l as [|a l IH]; simpl; [reflexivity|].
  destruct (f a) eqn:E; simpl; [rewrite E; now rewrite IH | exact IH].
Qed.

Lemma truthy_list_true {A : Type} (l : list A) : truthy_list l = true <-> l <> [].
Proof. destruct l; simpl; split; congruence. Qed.

(** ** The hook, by cases *)

(** The warnings the hook keeps: those under "warnings" that are not
    rewrite warnings. *)
Lemma sessionstart_run self rep :
  pytest_sessionstart self (Some rep) =
    (Ret tt,
     Some {| stats :=
               let kept :=
                 filter (fun i => negb (is_rewrite_warning i))
                   (match dict_get "warnings" (stats rep) with
                    | Some ws => ws
                    | None => []
                    end) in
               if truthy_list kept
                  && negb (option_is_set (config self) "--disable-warnings")
               then dict_set "warnings" kept (dict_remove "warnings" (stats rep))
               else dict_remove "warnings" (stats rep) |}).
Proof.
  unfold pytest_sessionstart, dict_pop. cbv zeta.
  now destruct (truthy_list _ && _).
Qed.

Lemma sessionstart_reported_warnings self rep :
  reported_warnings (snd (pytest_sessionstart self (Some rep))) =
    let kept :=
      filter (fun i => negb (is_rewrite_warning i))
        (match dict_get "warnings" (stats rep) with
         | Some ws => ws
         | None => []
         end) in
    if truthy_list kept && negb (option_is_set (config self) "--disable-warnings")
    then Some kept
    else None.
Proof.
  rewrite sessionstart_run. unfold reported_warnings, reported_under.
  cbn [snd stats]. cbv zeta.
  destruct (truthy_list _ && _).
  - apply dict_get_set_same.
  - apply dict_get_remove_same.
Qed.

(** ** Properties of the hook *)

(** After session start the warnings the reporter holds, if any, are not
    empty; none of them has "PytestAssertRewriteWarning" in its message, and
    each was among the warnings held before. *)
Theorem sessionstart_drops_rewrite_warnings self reporter ws :
  reported_warnings (snd (pytest_sessionstart self reporter)) = Some ws ->
  ws <> []
  /\ forall w, In w ws ->
       (~ exists pre post,
            message w = (pre ++ "PytestAssertRewriteWarning" ++ post)%string)
       /\ exists ws0, reported_warnings reporter = Some ws0 /\ In w ws0.
Proof.
  destruct reporter as [rep|]; [|discriminate].
  rewrite sessionstart_reported_warnings. cbv zeta.
  destruct (truthy_list _ && _) eqn:Hcond; [|discriminate].
  intros Heq. injection Heq as <-.
  apply andb_true_iff in Hcond. destruct Hcond as [Hkept _].
  split; [now apply truthy_list_true|].
  intros w Hin. apply filter_In in Hin. destruct Hin as [Hin Hnot].
  split.
  - intros Hsub. apply contains_spec in Hsub.
    unfold is_rewrite_warning in Hnot. rewrite Hsub in Hnot. discriminate.
  - unfold reported_warnings, reported_under.
    destruct (dict_get "warnings" (stats rep)) as [ws0|]; [|destruct Hin].
    now exists ws0.
Qed.

(** Unless warnings are disabled, the warnings that are not rewrite
    warnings are all kept, in their order. *)
Theorem sessionstart_keeps_other_warnings self reporter ws0 :
  option_is_set (config self) "--disable-warnings" = false ->
  reported_warnings reporter = Some ws0 ->
  filter (fun i => negb (is_rewrite_warning i)) ws0 <> [] ->
  reported_warnings (snd (pytest_sessionstart self reporter))
  = Some (filter (fun i => negb (is_rewrite_warning i)) ws0).
Proof.
  intros Hflag Hbefore Hkept.
  destruct reporter as [rep|]; [|discriminate].
  rewrite sessionstart_reported_warnings. cbv zeta.
  unfold reported_warnings, reported_under in Hbefore. rewrite Hbefore, Hflag.
  apply truthy_list_true in Hkept. now rewrite Hkept.
Qed.

(** When every warning held is a rewrite warning, the reporter holds no
    warnings entry afterwards: the entry is removed, not left empty. *)
Theorem only_rewrite_warnings_clears_category self reporter ws0 :
  reported_warnings reporter = Some ws0 ->
  (forall w, In w ws0 ->
     exists pre post, message w = (pre ++ "PytestAssertRewriteWarning" ++ post)%string) ->
  reported_warnings (snd (pytest_sessionstart self reporter)) = None.
Proof.
  intros Hbefore Hall.
  destruct reporter as [rep|]; [|reflexivity].
  rewrite sessionstart_reported_warnings. cbv zeta.
  unfold reported_warnings, reported_under in Hbefore. rewrite Hbefore.
  assert (Hnil : filter (fun i => negb (is_rewrite_warning i)) ws0 = []).
  { clear Hbefore. induction ws0 as [|w ws0 IH]; simpl; [reflexivity|].
    assert (Hw : is_rewrite_warning w = true)
      by (apply contains_spec, Hall; now left).
    rewrite Hw. simpl. apply IH. intros w' Hin. apply Hall. now right. }
  now rewrite Hnil.
Qed.

(** With warnings disabled the hook removes the whole warnings entry,
    whatever it held, not only the rewrite warnings. *)
Theorem disable_warnings_drops_all_warnings self reporter :
  option_is_set (config self) "--disable-warnings" = true ->
  reported_warnings (snd (pytest_sessionstart self reporter)) = None.
Proof.
  intros Hflag. destruct reporter as [rep|]; [|reflexivity].
  rewrite sessionstart_reported_warnings. cbv zeta.
  rewrite Hflag. now rewrite andb_false_r.
Qed.

(** Session start touches the warnings entry only: every other category
    of the reporter's stats reads as before. *)
Theorem sessionstart_leaves_other_categories self reporter category :
  category <> "warnings" ->
  reported_under category (snd (pytest_sessionstart self reporter))
  = reported_under category reporter.
Proof.
  intros Hne. destruct reporter as [rep|]; [|reflexivity].
  rewrite sessionstart_run. unfold reported_under. cbn [snd stats]. cbv zeta.
  destruct (truthy_list _ && _).
  - rewrite dict_get_set_other by exact Hne. now apply dict_get_remove_other.
  - now apply dict_get_remove_other.
Qed.

(** Running session start again changes nothing more: on the reporter it
    left behind, it returns the same result and leaves the same reporter. *)
Theorem sessionstart_idempotent self reporter :
  pytest_sessionstart self (snd (pytest_sessionstart self reporter))
  = pytest_sessionstart self reporter.
Proof.
  destruct reporter as [rep|]; [|reflexivity].
  rewrite (sessionstart_run self rep). cbn [snd]. rewrite sessionstart_run.
  cbn [stats]. cbv zeta.
  set (kept := filter (fun i => negb (is_rewrite_warning i))
                 (match dict_get "warnings" (stats rep) with
                  | Some ws => ws
                  | None => []
                  end)).
  destruct (truthy_list kept
            && negb (option_is_set (config self) "--disable-warnings")) eqn:Hcond.
  - rewrite dict_get_set_same, dict_remove_set.
    unfold kept at 1 2. rewrite filter_idempotent. fold kept.
    now rewrite Hcond.
  - rewrite dict_get_remove_same, dict_remove_idempotent. reflexivity.
Qed.

End SessionStart.

(** * The hooks on concrete providers *)

(** With ids counted from 1 the wrapper reverts after a test that raised,
    and the chain is as it was before the test. *)
Example revert_after_interrupted_test :
  events (pytest_runtest_protocol "test_a" None Mock.interrupted (Mock.counting_from 1))
  = [ESnapshot; ETestBody; ERevert (VInt 1)]
  /\ result (pytest_runtest_protocol "test_a" None Mock.interrupted (Mock.counting_from 1))
     = Raise (OtherError "KeyboardInterrupt")
  /\ option_map Mock.storage
       (active_provider
          (the_networks
             (final (pytest_runtest_protocol "test_a" None Mock.interrupted
                       (Mock.counting_from 1)))))
     = Some 0%Z.
Proof. repeat split. Qed.

(** C1, on the code: a provider that counts its snapshot ids from 0 hands
    the first test the token 0; the token is recorded, the test body raises,
    and the wrapper ends without calling [revert]: what the test wrote stays
    on the chain.  The same happens when the test fails an assertion. *)
Theorem revert_skipped_on_exit_paths_after_token_zero :
  events (pytest_runtest_protocol "test_a" None Mock.interrupted (Mock.counting_from 0))
  = [ESnapshot; ETestBody]
  /\ result (pytest_runtest_protocol "test_a" None Mock.interrupted (Mock.counting_from 0))
     = Raise (OtherError "KeyboardInterrupt")
  /\ option_map Mock.storage
       (active_provider
          (the_networks
             (final (pytest_runtest_protocol "test_a" None Mock.interrupted
                       (Mock.counting_from 0)))))
     = Some 5%Z
  /\ events (pytest_runtest_protocol "test_a" None Mock.failing (Mock.counting_from 0))
     = [ESnapshot; ETestBody].
Proof. repeat split. Qed.

Lemma no_provider_triggers_warning_witness :
  active_provider (the_networks (Mock.start None)) = None
  /\ warned (Mock.start None) = false
  /\ events (pytest_runtest_protocol "test_a" None Mock.passing (Mock.start None))
     = [ELog WARNING warning_text; ETestBody].
Proof.
  split; [reflexivity|]. split; [reflexivity|].
  apply (no_provider_triggers_warning "test_a" None Mock.passing (Mock.start None));
    reflexivity.
Defined.

Lemma falsy_token_is_never_reverted_witness :
  snapshot (Mock.fresh Mock.Working 0)
  = (Ret (VInt 0), {| Mock.support := Mock.Working; Mock.storage := 0;
                      Mock.next_id := 1; Mock.saved := [(0%Z, 0%Z)] |})
  /\ truthy (VInt 0) = false
  /\ count is_revert
       (events (pytest_runtest_protocol "test_a" None Mock.failing (Mock.counting_from 0)))
     = 0.
Proof.
  split; [reflexivity|]. split; [reflexivity|].
  apply (falsy_token_is_never_reverted "test_a" None Mock.failing (Mock.counting_from 0)
           (Mock.fresh Mock.Working 0) (VInt 0)
           {| Mock.support := Mock.Working; Mock.storage := 0;
              Mock.next_id := 1; Mock.saved := [(0%Z, 0%Z)] |});
    reflexivity.
Defined.

Lemma snapshot_not_implemented_degrades_witness :
  snapshot (Mock.fresh Mock.Unimplemented 1)
  = (Raise NotImplementedError, Mock.fresh Mock.Unimplemented 1)
  /\ result (pytest_runtest_protocol "test_a" None Mock.failing
               (Mock.start (Some (Mock.fresh Mock.Unimplemented 1))))
     = Ret Failed.
Proof.
  split; [reflexivity|].
  apply (snapshot_not_implemented_degrades "test_a" None Mock.failing
           (Mock.start (Some (Mock.fresh Mock.Unimplemented 1)))
           (Mock.fresh Mock.Unimplemented 1) NotImplementedError
           (Mock.fresh Mock.Unimplemented 1));
    reflexivity.
Defined.

Lemma snapshot_other_error_propagates_witness :
  snapshot (Mock.fresh (Mock.Broken (OtherError "ConnectionError")) 1)
  = (Raise (OtherError "ConnectionError"),
     Mock.fresh (Mock.Broken (OtherError "ConnectionError")) 1)
  /\ result (pytest_runtest_protocol "test_a" None Mock.passing
               (Mock.start (Some (Mock.fresh (Mock.Broken (OtherError "ConnectionError")) 1))))
     = Raise (OtherError "ConnectionError").
Proof.
  split; [reflexivity|].
  apply (snapshot_other_error_propagates "test_a" None Mock.passing
           (Mock.start (Some (Mock.fresh (Mock.Broken (OtherError "ConnectionError")) 1)))
           (Mock.fresh (Mock.Broken (OtherError "ConnectionError")) 1)
           (OtherError "ConnectionError")
           (Mock.fresh (Mock.Broken (OtherError "ConnectionError")) 1));
    reflexivity.
Defined.

(** After a first test on a provider without the snapshot attribute the
    flag is set; two more tests log nothing. *)
Lemma warning_at_most_once_witness :
  warned (fst (run_tests [("test_a", Mock.passing)]
                 (Mock.start (Some (Mock.fresh Mock.Absent 0))))) = true
  /\ count is_warning
       (snd (run_tests [("test_b", Mock.failing); ("test_c", Mock.passing)]
               (fst (run_tests [("test_a", Mock.passing)]
                       (Mock.start (Some (Mock.fresh Mock.Absent 0)))))))
     = 0.
Proof.
  split; [reflexivity|].
  apply (proj2 (proj2 (warning_at_most_once
                         [("test_b", Mock.failing); ("test_c", Mock.passing)]
                         (fst (run_tests [("test_a", Mock.passing)]
                                 (Mock.start (Some (Mock.fresh Mock.Absent 0)))))))).
  reflexivity.
Defined.

Lemma warning_message_exact_witness :
  In (ELog WARNING warning_text)
     (events (pytest_runtest_protocol "test_a" None Mock.passing (Mock.start None)))
  /\ ELog WARNING warning_text
     = ELog WARNING
         "The connected provider does not support snapshotting. Tests will not be completely isolated.".
Proof.
  split; [left; reflexivity|].
  apply (proj2 (warning_message_exact (Mock.start None)) "test_a" None Mock.passing).
  - left; reflexivity.
  - reflexivity.
Defined.

(** C6 as stated fails: a test was collected and no provider is active, but
    a wrapped collection-finish hook returned a result, and [connect()] is
    not called. *)
Lemma collection_finish_result_blocks_connect :
  ~ (count is_connect
       (events (pytest_collection_finish (Mock.resolve Mock.Working 1)
                  ["test_a"] (Ret [VInt 1]) (Mock.start None))) = 1
     <-> ["test_a"] <> [] /\ active_provider (the_networks (Mock.start None)) = None).
Proof.
  intros [_ Hback].
  assert (Hfalse : 0 = 1) by (apply Hback; split; [discriminate | reflexivity]).
  discriminate Hfalse.
Qed.

Lemma collection_finish_connects_lazily_witness :
  count is_connect
    (events (pytest_collection_finish (Mock.resolve Mock.Working 1)
               ["test_a"] (Ret []) (Mock.start None))) = 1.
Proof.
  apply (proj1 (collection_finish_connects_lazily (Mock.resolve Mock.Working 1)
                  ["test_a"] (Ret []) (Mock.start None))).
  split; [reflexivity|]. split; [discriminate|]. split; [reflexivity|].
  exists (Mock.fresh Mock.Working 1). reflexivity.
Defined.

(** * The further properties on concrete inputs *)

Lemma revert_only_with_fresh_token_witness :
  In (ERevert (VInt 1))
     (events (pytest_runtest_protocol "test_a" None Mock.failing (Mock.counting_from 1)))
  /\ exists p p',
       active_provider (the_networks (Mock.counting_from 1)) = Some p
       /\ snapshot p = (Ret (VInt 1), p')
       /\ truthy (VInt 1) = true
       /\ events (pytest_runtest_protocol "test_a" None Mock.failing (Mock.counting_from 1))
          = [ESnapshot; ETestBody; ERevert (VInt 1)].
Proof.
  split; [right; right; left; reflexivity|].
  apply (revert_only_with_fresh_token "test_a" None Mock.failing (Mock.counting_from 1)).
  right; right; left; reflexivity.
Defined.

(** A test that loses the saved snapshots passes, [revert] then fails, and
    the wrapper raises the exception of [revert]. *)
Lemma revert_failure_replaces_outcome_witness :
  fst (run_body Fixtures.resetting
         {| Mock.support := Mock.Working; Mock.storage := 0;
            Mock.next_id := 2; Mock.saved := [(1%Z, 0%Z)] |}) = Ret Passed
  /\ result (pytest_runtest_protocol "test_a" None Fixtures.resetting (Mock.counting_from 1))
     = Raise (OtherError "unknown snapshot").
Proof.
  split; [reflexivity|].
  rewrite (revert_failure_replaces_outcome "test_a" None Fixtures.resetting
             (Mock.counting_from 1) (Mock.fresh Mock.Working 1) (VInt 1)
             {| Mock.support := Mock.Working; Mock.storage := 0;
                Mock.next_id := 2; Mock.saved := [(1%Z, 0%Z)] |});
    reflexivity.
Defined.

Lemma missing_attribute_degrades_witness :
  hasattr_snapshot (Mock.fresh Mock.Absent 0) = false
  /\ events (pytest_runtest_protocol "test_a" None Mock.failing
               (Mock.start (Some (Mock.fresh Mock.Absent 0))))
     = [ELog WARNING warning_text; ETestBody].
Proof.
  split; [reflexivity|].
  apply (missing_attribute_degrades "test_a" None Mock.failing
           (Mock.start (Some (Mock.fresh Mock.Absent 0))) (Mock.fresh Mock.Absent 0));
    reflexivity.
Defined.

(** Three tests against a provider without snapshots: one warning. *)
Lemma fresh_runner_warns_exactly_once_witness :
  count is_warning
    (snd (run_tests [("test_a", Mock.passing); ("test_b", Mock.failing);
                     ("test_c", Mock.interrupted)]
            (Mock.start (Some (Mock.fresh Mock.Absent 0))))) = 1.
Proof.
  apply (fresh_runner_warns_exactly_once Mock.cfg "project" 0 "test_a" Mock.passing
           [("test_b", Mock.failing); ("test_c", Mock.interrupted)]
           (Mock.start (Some (Mock.fresh Mock.Absent 0))) (Mock.fresh Mock.Absent 0));
    reflexivity.
Defined.

Lemma failed_connect_leaves_provider_active_witness :
  fst (connect {| Fixtures.reachable := false |}) = Raise (OtherError "ProviderError")
  /\ result (pytest_collection_finish Fixtures.unreachable ["test_a"] (Ret [])
               Fixtures.node_start)
     = Raise (OtherError "ProviderError")
  /\ active_provider
       (the_networks
          (final (pytest_collection_finish Fixtures.unreachable ["test_a"] (Ret [])
                    Fixtures.node_start)))
     = Some {| Fixtures.reachable := false |}.
Proof.
  split; [reflexivity|].
  assert (Hthm := failed_connect_leaves_provider_active Fixtures.unreachable
                    ["test_a"] Fixtures.node_start {| Fixtures.reachable := false |}
                    (OtherError "ProviderError")).
  cbv zeta in Hthm.
  destruct Hthm as (Hres & Hact & _);
    [discriminate | reflexivity | reflexivity | reflexivity |].
  split; [exact Hres | exact Hact].
Defined.

Lemma resolution_failure_propagates_witness :
  result (pytest_collection_finish Fixtures.unknown_network ["test_a"] (Ret [])
            (Mock.start None))
  = Raise (OtherError "NetworkNotFoundError")
  /\ final (pytest_collection_finish Fixtures.unknown_network ["test_a"] (Ret [])
              (Mock.start None))
     = Mock.start None.
Proof.
  assert (Hthm := resolution_failure_propagates Fixtures.unknown_network
                    ["test_a"] (Mock.start None) (OtherError "NetworkNotFoundError")).
  cbv zeta in Hthm.
  destruct Hthm as (Hres & Hfin & _);
    [discriminate | reflexivity | reflexivity |].
  split; [exact Hres | exact Hfin].
Defined.

Lemma collection_finish_delivers_outcome_witness :
  result (pytest_collection_finish (Mock.resolve Mock.Working 1) ["test_a"]
            (Raise (OtherError "UsageError")) (Mock.start None))
  = Raise (OtherError "UsageError").
Proof.
  apply (proj2 (collection_finish_delivers_outcome (Mock.resolve Mock.Working 1)
                  ["test_a"] (Raise (OtherError "UsageError")) (Mock.start None))
           (OtherError "UsageError")).
  reflexivity.
Defined.

Lemma sessionfinish_never_clears_provider_witness :
  result (pytest_sessionfinish (Mock.counting_from 1)) = Ret tt.
Proof.
  rewrite (proj2 (proj2 (sessionfinish_never_clears_provider (Mock.counting_from 1)))
             (Mock.fresh Mock.Working 1) eq_refl).
  reflexivity.
Defined.

Lemma sessionstart_drops_rewrite_warnings_witness :
  reported_warnings
    (snd (pytest_sessionstart (init Fixtures.loud_cfg "project" 0) (Some Fixtures.reporter)))
  = Some [Fixtures.deprecation_warning]
  /\ [Fixtures.deprecation_warning] <> [].
Proof.
  split; [reflexivity|].
  apply (sessionstart_drops_rewrite_warnings (init Fixtures.loud_cfg "project" 0)
           (Some Fixtures.reporter) [Fixtures.deprecation_warning]).
  reflexivity.
Defined.

Lemma sessionstart_keeps_other_warnings_witness :
  reported_warnings
    (snd (pytest_sessionstart (init Fixtures.loud_cfg "project" 0) (Some Fixtures.reporter)))
  = Some [Fixtures.deprecation_warning].
Proof.
  apply (sessionstart_keeps_other_warnings (init Fixtures.loud_cfg "project" 0)
           (Some Fixtures.reporter)
           [Fixtures.rewrite_warning; Fixtures.deprecation_warning]).
  - reflexivity.
  - reflexivity.
  - discriminate.
Defined.

Lemma only_rewrite_warnings_clears_category_witness :
  reported_warnings
    (snd (pytest_sessionstart (init Fixtures.loud_cfg "project" 0)
            (Some {| stats := [("warnings", [Fixtures.rewrite_warning])] |})))
  = None.
Proof.
  apply (only_rewrite_warnings_clears_category (init Fixtures.loud_cfg "project" 0)
           (Some {| stats := [("warnings", [Fixtures.rewrite_warning])] |})
           [Fixtures.rewrite_warning]).
  - reflexivity.
  - intros w [<-|[]].
    exists ""%string, ": Module already imported so cannot be rewritten: ape"%string.
    reflexivity.
Defined.

Lemma disable_warnings_drops_all_warnings_witness :
  reported_warnings (Some Fixtures.reporter)
  = Some [Fixtures.rewrite_warning; Fixtures.deprecation_warning]
  /\ reported_warnings
       (snd (pytest_sessionstart (init Fixtures.quiet_cfg "project" 0)
               (Some Fixtures.reporter)))
     = None.
Proof.
  split; [reflexivity|].
  apply (disable_warnings_drops_all_warnings (init Fixtures.quiet_cfg "project" 0)
           (Some Fixtures.reporter)).
  reflexivity.
Defined.

Lemma sessionstart_leaves_other_categories_witness :
  reported_under "deselected"
    (snd (pytest_sessionstart (init Fixtures.loud_cfg "project" 0) (Some Fixtures.reporter)))
  = Some [].
Proof.
  rewrite (sessionstart_leaves_other_categories (init Fixtures.loud_cfg "project" 0)
             (Some Fixtures.reporter) "deselected").
  - reflexivity.
  - discriminate.
Defined.

Lemma disconnect_once_at_session_finish_witness :
  active_provider (the_networks (Mock.counting_from 1)) = Some (Mock.fresh Mock.Working 1)
  /\ pytest_sessionfinish (Mock.counting_from 1)
     = (fst (disconnect (Mock.fresh Mock.Working 1)),
        set_active_provider (Some (snd (disconnect (Mock.fresh Mock.Working 1))))
          (Mock.counting_from 1),
        [EDisconnect]).
Proof.
  split; [reflexivity|].
  exact (proj1 (disconnect_once_at_session_finish (Mock.resolve Mock.Working 1)
                  ["test_a"] (Ret []) [("test_a", Mock.passing)] (Mock.start None))
           (Mock.counting_from 1) (Mock.fresh Mock.Working 1) eq_refl).
Defined.

Lemma test_body_runs_once_witness :
  snapshot (Mock.fresh (Mock.Broken (OtherError "ConnectionError")) 1)
  = (Raise (OtherError "ConnectionError"),
     Mock.fresh (Mock.Broken (OtherError "ConnectionError")) 1)
  /\ count is_test_body
       (events (pytest_runtest_protocol "test_a" None Mock.passing
                  (Mock.start (Some (Mock.fresh (Mock.Broken (OtherError "ConnectionError")) 1)))))
     = 0.
Proof.
  split; [reflexivity|].
  exact (proj1 (proj1 (test_body_runs_once "test_a" None Mock.passing
                         (Mock.start (Some (Mock.fresh (Mock.Broken (OtherError "ConnectionError")) 1))))
                  (Mock.fresh (Mock.Broken (OtherError "ConnectionError")) 1)
                  (OtherError "ConnectionError")
                  (Mock.fresh (Mock.Broken (OtherError "ConnectionError")) 1)
                  eq_refl eq_refl eq_refl eq_refl)).
Defined.

(** [connect()] raised; no test is run; session finish still disconnects. *)
Lemma connect_is_matched_by_disconnect_witness :
  count is_connect
    (events (pytest_collection_finish Fixtures.unreachable ["test_a"] (Ret [])
               Fixtures.node_start)) = 1
  /\ exists p,
       active_provider
         (the_networks
            (fst (run_tests []
                    (final (pytest_collection_finish Fixtures.unreachable ["test_a"]
                              (Ret []) Fixtures.node_start))))) = Some p
       /\ pytest_sessionfinish
            (fst (run_tests []
                    (final (pytest_collection_finish Fixtures.unreachable ["test_a"]
                              (Ret []) Fixtures.node_start))))
          = (fst (disconnect p),
             set_active_provider (Some (snd (disconnect p)))
               (fst (run_tests []
                       (final (pytest_collection_finish Fixtures.unreachable ["test_a"]
                                 (Ret []) Fixtures.node_start)))),
             [EDisconnect]).
Proof.
  split; [reflexivity|].
  exact (proj2 (proj2 (proj2 (proj2 (connect_is_matched_by_disconnect
                                       Fixtures.unreachable ["test_a"] (Ret []) []
                                       Fixtures.node_start)))
                  eq_refl)).
Defined.
